(** * Quantum random number generator: the pipeline of [qrng.py]

    A shallow embedding of the five stages of [qrng.py] (service
    connector, circuit builder, executor, decoder, reporter) and of [main],
    with the properties its specification states about them.

    Conventions of the embedding.
    - Python [int] is [Z]; list lengths and loop indices are [nat].
    - Python [str] is [string]; the model covers ASCII text.
    - A [dict] iterated with [.items()] is an association list in insertion
      order, [list (string * Z)] for the outcome-count mapping.
    - Effects are threaded through a [World]: the state of the classical
      pseudo-random generator used by [random.shuffle], and the trace of
      everything the program prints, submits, and saves.
    - An exception is a [Raise] result; the world reached when it is raised
      is kept, as in Python.
    - The remote service and the plotting library are outside the program and
      are given by an environment [Env] of oracles. *)

From Stdlib Require Import QArith Ascii String.
From stdpp Require Import base list sets strings numbers.
From stdpp Require sorting.

Local Open Scope string_scope.
Local Open Scope list_scope.
Local Open Scope Z_scope.

(** ** Exceptions and results

    [exn] holds the exceptions that are instances of Python's [Exception],
    the ones [except Exception] catches. [KeyboardInterrupt], [SystemExit]
    and the other exceptions outside [Exception], which can strike at any
    point and which line 275 lets through, are not modelled. *)

Inductive exn : Type :=
| ValueError                      (* int() on a malformed literal, min([]) *)
| ZeroDivisionError               (* x / 0 *)
| IndexError                      (* list index out of range *)
| LibraryError (what : string).   (* raised by qiskit or matplotlib *)

Inductive res (A : Type) : Type :=
| Ok (a : A)
| Raise (e : exn).
Arguments Ok {A} a.
Arguments Raise {A} e.

(** ** Circuits (the request description) *)

Inductive instruction : Type :=
| H (qubit : nat)
| Barrier (qubits : list nat)
| Measure (qubit : nat) (clbit : nat).

Record QuantumCircuit : Type := mkCircuit {
  num_qubits : nat;
  num_clbits : nat;
  data : list instruction
}.

(** ** Console output

    An f-string is kept as its fragments, so that a printed number can be
    read back from the trace. [IntF z w] is [z] printed with minimal width
    [w]. A Python float is kept as the rational it is computed from:
    [FloatF q d] is it printed with format [.df], [FloatRepr q] with its
    default format. *)

Inductive frag : Type :=
| Lit (s : string)
| IntF (z : Z) (width : nat)
| FloatF (q : Q) (digits : nat)
| FloatRepr (q : Q)
| ListF (l : list Z)
| ExnF (e : exn)
| DiagramF (c : QuantumCircuit).

Definition line : Type := list frag.

Inductive event : Type :=
| Printed (l : line)
| Authenticated (channel token : string)
| Transpiled (c : QuantumCircuit) (optimization_level : Z)
| Submitted (c : QuantumCircuit) (shots : Z)
| Awaited
| Plotted (counts : list (string * Z))
| BarChart (values frequencies : list Z)
| Saved (path : string)
| Shown.

(** ** The world and the effect monad *)

Record World : Type := mkWorld {
  rng : list nat;        (* raw draws still to be consumed by [randbelow] *)
  trace : list event     (* what happened so far, oldest first *)
}.

Definition M (A : Type) : Type := World -> res A * World.

Definition ret {A} (a : A) : M A := fun w => (Ok a, w).

Definition bind {A B} (m : M A) (k : A -> M B) : M B :=
  fun w => match m w with
           | (Ok a, w') => k a w'
           | (Raise e, w') => (Raise e, w')
           end.

Definition raise {A} (e : exn) : M A := fun w => (Raise e, w).

(** [try: body except Exception as e: handler e]. Every [exn] is an instance
    of [Exception], so the handler takes them all. *)
Definition try_except {A} (body : M A) (handler : exn -> M A) : M A :=
  fun w => match body w with
           | (Ok a, w') => (Ok a, w')
           | (Raise e, w') => handler e w'
           end.

Definition lift {A} (r : res A) : M A := fun w => (r, w).

Definition emit (e : event) : M unit :=
  fun w => (Ok tt, mkWorld (rng w) (trace w ++ [e])).

Definition print (l : line) : M unit := emit (Printed l).

#[global] Instance M_ret : MRet M := @ret.
#[global] Instance M_bind : MBind M := fun A B k m => bind m k.

(** The newline character. *)
Definition nl : string := String "010" "".

(** [s * n] on strings. *)
Fixpoint str_mul (s : string) (n : nat) : string :=
  match n with
  | O => ""
  | S n' => String.append s (str_mul s n')
  end.

(** [for a in l: s = body a s]. *)
Fixpoint for_each {A S} (l : list A) (body : A -> S -> M S) (s : S) : M S :=
  match l with
  | [] => ret s
  | a :: l' => s' ← body a s; for_each l' body s'
  end.

(** An optional argument: the value passed, or the parameter's default. *)
Definition or_default {A} (arg : option A) (d : A) : A :=
  match arg with
  | Some a => a
  | None => d
  end.

(** [range(a, b)]. *)
Definition range (a b : nat) : list nat := seq a (b - a).

(** ** [int(s, 2)]

    CPython's [int(str, base)] with base 2, on ASCII text: blanks are
    stripped on both sides, one sign is allowed, then an optional [0b] or
    [0B] prefix (which may be followed by one underscore), then binary
    digits with single underscores between them, read most significant bit
    first. Anything else is a [ValueError]. *)

Definition is_space (c : ascii) : bool :=
  let n := nat_of_ascii c in
  (Nat.eqb n 32 || (Nat.leb 9 n && Nat.leb n 13))%bool.

Fixpoint skip_spaces (s : string) : string :=
  match s with
  | String c s' => if is_space c then skip_spaces s' else s
  | EmptyString => s
  end.

Definition skip_sign (s : string) : bool * string :=
  match s with
  | String "+" s' => (false, s')
  | String "-" s' => (true, s')
  | _ => (false, s)
  end.

Definition skip_prefix (s : string) : string :=
  match s with
  | String "0" (String "b" s') | String "0" (String "B" s') =>
      match s' with
      | String "_" s'' => s''
      | _ => s'
      end
  | _ => s
  end.

(** The digit loop: [prev] tells whether the previous character was an
    underscore; the result is the value, the number of digits read and the
    unread rest. *)
Fixpoint scan_bits (s : string) (prev : bool) (acc : Z) (digits : nat)
  : option (Z * nat * string) :=
  match s with
  | String "0" s' => scan_bits s' false (2 * acc) (S digits)
  | String "1" s' => scan_bits s' false (2 * acc + 1) (S digits)
  | String "_" s' => if prev then None else scan_bits s' true acc digits
  | _ => if prev then None else Some (acc, digits, s)
  end.

Definition int2 (s : string) : res Z :=
  let s1 := skip_spaces s in
  let '(neg, s2) := skip_sign s1 in
  let s3 := skip_prefix s2 in
  match s3 with
  | String "_" _ => Raise ValueError
  | _ =>
      match scan_bits s3 false 0 0 with
      | None => Raise ValueError
      | Some (v, digits, rest) =>
          match digits, skip_spaces rest with
          | S _, EmptyString => Ok (if neg then - v else v)
          | _, _ => Raise ValueError
          end
      end
  end.

(** ** [random.shuffle] *)

(** [Random._randbelow(k)], one call: a number below [k]. The generator is
    abstracted to the tape of the answers it will give, one cell per call,
    reduced below [k]; an exhausted tape keeps answering 0. Every behaviour
    of the real generator is the behaviour of some tape, not the converse:
    the model supports statements about every tape, not statements that
    some tape exists. *)
Definition randbelow (k : nat) : M nat :=
  fun w => match rng w with
           | [] => (Ok 0%nat, w)
           | r :: g => (Ok (r mod k)%nat, mkWorld g (trace w))
           end.

(** [x[i], x[j] = x[j], x[i]]. *)
Definition swap (x : list Z) (i j : nat) : M (list Z) :=
  match x !! j, x !! i with
  | Some xj, Some xi => ret (<[j := xi]> (<[i := xj]> x))
  | _, _ => raise IndexError
  end.

Definition shuffle (x : list Z) : M (list Z) :=
  for_each (rev (range 1 (length x)))
    (fun i x => j ← randbelow (i + 1); swap x i j) x.

(** ** Stage 4: the decoder *)

Definition extract_random_numbers (counts : list (string * Z)) : M (list Z) :=
  print [Lit nl; Lit "🎲 Converting quantum measurements to random numbers..."];;
  random_numbers ←
    for_each counts
      (fun '(binary_string, count) random_numbers =>
         decimal_value ← lift (int2 binary_string);
         ret (random_numbers ++ replicate (Z.to_nat count) decimal_value))
      [];
  random_numbers ← shuffle random_numbers;
  print [Lit "✅ Generated "; IntF (Z.of_nat (length random_numbers)) 0;
         Lit " random numbers!"];;
  ret random_numbers.


(** ** The remote service and the plotting library *)

Inductive Service : Type := ServiceHandle (channel token : string).

Record Backend : Type := mkBackend {
  name : string;
  backend_num_qubits : Z;
  quantum_volume : option Z       (* [None]: the attribute is absent *)
}.

Inductive Figure : Type := FigureHandle.

Record Env : Type := mkEnv {
  (* QiskitRuntimeService(channel=..., token=...) *)
  connect : string -> string -> res Service;
  (* service.least_busy(operational=True, simulator=False) *)
  least_busy : Service -> res Backend;
  (* generate_preset_pass_manager(backend, optimization_level).run(circuit) *)
  transpile : Backend -> Z -> QuantumCircuit -> res QuantumCircuit;
  (* circuit.depth() *)
  depth : QuantumCircuit -> Z;
  (* sampler.options.default_shots = v *)
  set_default_shots : Z -> res unit;
  (* sampler.run([circuit]), giving the job and its id *)
  sampler_run : Backend -> QuantumCircuit -> Z -> res string;
  (* job.result()[0].data.meas.get_counts() *)
  job_result : string -> res (list (string * Z));
  (* plot_histogram(counts, ...): a figure or None *)
  plot_histogram : list (string * Z) -> res (option Figure);
  (* fig.savefig(path, ...) *)
  fig_savefig : Figure -> string -> res unit;
  (* the call of the pyplot function of that name *)
  plt : string -> res unit
}.

(** ** Stage 1: the service connector *)

Definition setup_quantum_service (env : Env) : M Service :=
  print [Lit "🔐 Authenticating with IBM Quantum Platform..."];;
  let API_TOKEN := "add_your_key_here" in
  service ← lift (connect env "ibm_quantum_platform" API_TOKEN);
  emit (Authenticated "ibm_quantum_platform" API_TOKEN);;
  print [Lit "✅ Authentication successful!"];;
  ret service.

(** ** Stage 2: the circuit builder *)

(** [QuantumCircuit(n)]: a negative size is refused by the library. *)
Definition new_circuit (n : Z) : res QuantumCircuit :=
  if n <? 0 then Raise (LibraryError "CircuitError")
  else Ok (mkCircuit (Z.to_nat n) 0 []).

(** [qc.h(qubit)]: a qubit index out of range is refused by the library. *)
Definition h (qubit : nat) (qc : QuantumCircuit) : res QuantumCircuit :=
  if (qubit <? num_qubits qc)%nat
  then Ok (mkCircuit (num_qubits qc) (num_clbits qc) (data qc ++ [H qubit]))
  else Raise (LibraryError "CircuitError").

(** [qc.measure_all()]: a new classical register as wide as the circuit, a
    barrier over all qubits, and the measurement of every qubit into its bit
    of the new register. *)
Definition measure_all (qc : QuantumCircuit) : QuantumCircuit :=
  let qubits := range 0 (num_qubits qc) in
  mkCircuit (num_qubits qc) (num_clbits qc + num_qubits qc)
    (data qc ++ [Barrier qubits]
             ++ map (fun q => Measure q (num_clbits qc + q)) qubits).

(** [2**n - 1] as the f-string prints it: an [int] for [n >= 0], a [float]
    otherwise. *)
Definition pow2_minus_1 (n : Z) : frag :=
  if 0 <=? n then IntF (2 ^ n - 1) 0
  else FloatRepr (Qpower (2 # 1) n - 1)%Q.

Definition default_num_qubits : Z := 8.

Definition create_qrng_circuit (num_qubits : option Z) : M QuantumCircuit :=
  let num_qubits := or_default num_qubits default_num_qubits in
  print [Lit "🔬 Creating quantum circuit with "; IntF num_qubits 0;
         Lit " qubits..."];;
  qc ← lift (new_circuit num_qubits);
  qc ← for_each (range 0 (Z.to_nat num_qubits))
         (fun qubit qc => lift (h qubit qc)) qc;
  let qc := measure_all qc in
  print [Lit "✅ Quantum circuit created!"];;
  print [Lit "   Circuit will generate random numbers from 0 to ";
         pow2_minus_1 num_qubits];;
  ret qc.

(** ** Stage 3: the executor *)

Definition default_num_shots : Z := 1024.

Definition execute_on_quantum_hardware (env : Env) (service : Service)
    (circuit : QuantumCircuit) (num_shots : option Z)
  : M (list (string * Z) * string) :=
  let num_shots := or_default num_shots default_num_shots in
  print [Lit nl; Lit "🚀 Preparing to run on quantum hardware..."];;
  backend ← lift (least_busy env service);
  print [Lit "📡 Selected backend: "; Lit (name backend)];;
  print [Lit "   Number of qubits: "; IntF (backend_num_qubits backend) 0];;
  print [Lit "   Quantum volume: ";
         match quantum_volume backend with
         | Some v => IntF v 0
         | None => Lit "N/A"
         end];;
  print [Lit nl; Lit "🔧 Transpiling circuit for target hardware..."];;
  isa_circuit ← lift (transpile env backend 1 circuit);
  emit (Transpiled circuit 1);;
  print [Lit "✅ Transpilation complete!"];;
  print [Lit "   Original circuit depth: "; IntF (depth env circuit) 0];;
  print [Lit "   Transpiled circuit depth: "; IntF (depth env isa_circuit) 0];;
  print [Lit nl; Lit "⚛️  Submitting job to quantum computer (";
         IntF num_shots 0; Lit " shots)..."];;
  print [Lit "   ⏳ This may take a few moments as your job waits in the queue..."];;
  lift (set_default_shots env num_shots);;
  job ← lift (sampler_run env backend isa_circuit num_shots);
  emit (Submitted isa_circuit num_shots);;
  print [Lit "   Job ID: "; Lit job];;
  print [Lit "   Status: Job submitted - waiting for execution..."];;
  counts ← lift (job_result env job);
  emit Awaited;;
  print [Lit "✅ Quantum execution complete!"];;
  ret (counts, name backend).

(** ** Stage 5: the reporter *)

(** [min(l)] and [max(l)]: a [ValueError] on the empty list. *)
Definition py_min (l : list Z) : res Z :=
  match l with
  | [] => Raise ValueError
  | x :: l' => Ok (fold_left Z.min l' x)
  end.

Definition py_max (l : list Z) : res Z :=
  match l with
  | [] => Raise ValueError
  | x :: l' => Ok (fold_left Z.max l' x)
  end.

(** [sum(l)]. *)
Definition py_sum (l : list Z) : Z := fold_left Z.add l 0.

(** [a / b] on integers: [ZeroDivisionError] for [b = 0], otherwise the
    exact quotient. Python returns the double nearest to it, and raises
    [OverflowError] when it is too large for a double; the model keeps the
    rational, which is the printed value whenever the quotient is a double
    (as 200/100 is) and stands for it symbolically elsewhere. *)
Definition py_truediv (a b : Z) : res Q :=
  if b =? 0 then Raise ZeroDivisionError
  else Ok (inject_Z a / inject_Z b)%Q.

(** [len(set(l))]. *)
Definition len_set (l : list Z) : nat := length (remove_dups l).

(** [sorted(items, key=lambda x: x[1], reverse=True)]: a stable sort by
    decreasing count, items of equal count keeping their order. *)
Fixpoint insert_by_count (x : string * Z) (l : list (string * Z))
  : list (string * Z) :=
  match l with
  | [] => [x]
  | y :: l' => if x.2 <? y.2 then y :: insert_by_count x l' else x :: l
  end.

Definition sorted_by_count (items : list (string * Z)) : list (string * Z) :=
  foldr insert_by_count [] items.

(** The block under [if random_numbers:]. *)
Definition statistics_block (random_numbers : list Z) : M unit :=
  match random_numbers with
  | [] => ret tt
  | _ :: _ =>
      print [Lit nl; Lit "📈 Statistics:"];;
      lo ← lift (py_min random_numbers);
      print [Lit "   Min: "; IntF lo 0];;
      hi ← lift (py_max random_numbers);
      print [Lit "   Max: "; IntF hi 0];;
      mean ← lift (py_truediv (py_sum random_numbers)
                              (Z.of_nat (length random_numbers)));
      print [Lit "   Mean: "; FloatF mean 2]
  end.

(** The ten most frequent outcomes with their share of the samples. *)
Definition distribution_block (counts : list (string * Z))
    (random_numbers : list Z) : M unit :=
  print [Lit nl; Lit "🔬 Measurement Distribution:"];;
  let sorted_counts := take 10 (sorted_by_count counts) in
  for_each sorted_counts
    (fun '(binary, count) _ =>
       decimal ← lift (int2 binary);
       ratio ← lift (py_truediv count (Z.of_nat (length random_numbers)));
       let percentage := (ratio * 100)%Q in
       print [Lit "   "; Lit binary; Lit " (decimal: "; IntF decimal 3;
              Lit ") → "; IntF count 4; Lit " times (";
              FloatF percentage 1; Lit "%)"])
    tt.

(** [[int(k, 2) for k in counts.keys()]]. *)
Fixpoint decimal_keys (counts : list (string * Z)) : res (list Z) :=
  match counts with
  | [] => Ok []
  | (k, _) :: counts' =>
      match int2 k with
      | Raise e => Raise e
      | Ok v =>
          match decimal_keys counts' with
          | Raise e => Raise e
          | Ok vs => Ok (v :: vs)
          end
      end
  end.

(** The histogram: the library's figure when there is one, a bar chart
    drawn with pyplot otherwise. *)
Definition render_histogram (env : Env) (counts : list (string * Z))
    (backend_name : string) : M unit :=
  print [Lit nl; Lit "📊 Generating histogram..."];;
  fig ← lift (plot_histogram env counts);
  emit (Plotted counts);;
  match fig with
  | Some fig =>
      lift (fig_savefig env fig "qrng_results.png");;
      emit (Saved "qrng_results.png");;
      print [Lit "✅ Histogram saved as 'qrng_results.png'"];;
      lift (plt env "show");;
      emit Shown
  | None =>
      lift (plt env "figure");;
      values ← lift (decimal_keys counts);
      let frequencies := counts.*2 in
      lift (plt env "bar");;
      emit (BarChart values frequencies);;
      lift (plt env "xlabel");;
      lift (plt env "ylabel");;
      lift (plt env "title");;
      lift (plt env "grid");;
      lift (plt env "tight_layout");;
      lift (plt env "savefig");;
      emit (Saved "qrng_results.png");;
      print [Lit "✅ Histogram saved as 'qrng_results.png'"];;
      lift (plt env "show");;
      emit Shown
  end.

(** The lines before the statistics. *)
Definition summary_block (random_numbers : list Z) (backend_name : string)
    (num_qubits : Z) : M unit :=
  print [Lit nl; Lit (str_mul "=" 70)];;
  print [Lit "🎯 QUANTUM RANDOM NUMBER GENERATOR - RESULTS"];;
  print [Lit (str_mul "=" 70)];;
  print [Lit "Backend Used: "; Lit backend_name];;
  print [Lit "Total Measurements: ";
         IntF (Z.of_nat (length random_numbers)) 0];;
  print [Lit "Number Range: 0 to "; pow2_minus_1 num_qubits];;
  print [Lit "Unique Values Generated: ";
         IntF (Z.of_nat (len_set random_numbers)) 0];;
  print [Lit nl; Lit "📊 Sample Random Numbers (first 20):"];;
  print [ListF (take 20 random_numbers)].

Definition display_results (env : Env) (counts : list (string * Z))
    (random_numbers : list Z) (backend_name : string) (num_qubits : Z)
  : M unit :=
  summary_block random_numbers backend_name num_qubits;;
  statistics_block random_numbers;;
  distribution_block counts random_numbers;;
  render_histogram env counts backend_name.

(** ** The pipeline *)

Definition NUM_QUBITS : Z := 6.
Definition NUM_SHOTS : Z := 1024.

Definition main (env : Env) : M (list Z) :=
  print [Lit nl; Lit (str_mul "=" 70)];;
  print [Lit "⚛️  QUANTUM RANDOM NUMBER GENERATOR"];;
  print [Lit "    Using IBM Quantum Hardware (Open Plan)"];;
  print [Lit (str_mul "=" 70); Lit nl];;
  try_except
    (service ← setup_quantum_service env;
     circuit ← create_qrng_circuit (Some NUM_QUBITS);
     print [Lit nl; Lit "📐 Circuit Diagram:"];;
     print [DiagramF circuit];;
     '(counts, backend_name) ←
       execute_on_quantum_hardware env service circuit (Some NUM_SHOTS);
     random_numbers ← extract_random_numbers counts;
     display_results env counts random_numbers backend_name NUM_QUBITS;;
     print [Lit nl; Lit (str_mul "=" 70)];;
     print [Lit "✨ Quantum Random Number Generation Complete!"];;
     print [Lit (str_mul "=" 70)];;
     ret random_numbers)
    (fun e =>
       print [Lit nl; Lit "❌ Error occurred: "; ExnF e];;
       print [Lit nl; Lit "Troubleshooting tips:"];;
       print [Lit "1. Check your API token is correct"];;
       print [Lit "2. Ensure you have available quantum time (Open Plan: 10 min/28 days)"];;
       print [Lit "3. Check IBM Quantum Platform status at https://quantum.ibm.com/"];;
       raise e).

(** ** Vocabulary of the specification *)

Definition is_bit (c : ascii) : bool := (Ascii.eqb c "0" || Ascii.eqb c "1")%bool.

(** A binary string: every character is [0] or [1]. *)
Fixpoint is_binary (s : string) : bool :=
  match s with
  | EmptyString => true
  | String c s' => is_bit c && is_binary s'
  end.

(** The unsigned integer a binary string denotes, most significant bit
    first: the character at distance [k] from the end weighs [2^k]. *)
Fixpoint bin_value (s : string) : Z :=
  match s with
  | EmptyString => 0
  | String c s' =>
      (if Ascii.eqb c "1" then 2 ^ Z.of_nat (String.length s') else 0)
      + bin_value s'
  end.

(** The samples a mapping stands for, grouped by outcome: each outcome's
    value repeated as many times as its count. *)
Definition expand (counts : list (string * Z)) : list Z :=
  flat_map (fun kc => replicate (Z.to_nat kc.2) (bin_value kc.1)) counts.

(** [sum(counts.values())]. *)
Definition total_count (counts : list (string * Z)) : Z := py_sum (counts.*2).

(** The keys are binary strings of length [n]. *)
Definition binary_keys (n : nat) (counts : list (string * Z)) : Prop :=
  Forall (fun kc => is_binary kc.1 = true /\ String.length kc.1 = n) counts.

(** The keys are non-empty binary strings (of any length). *)
Definition outcome_keys (counts : list (string * Z)) : Prop :=
  Forall (fun kc => is_binary kc.1 = true /\ kc.1 <> "") counts.

(** No count is negative. *)
Definition nonneg_counts (counts : list (string * Z)) : Prop :=
  Forall (fun kc => 0 <= kc.2) counts.

(** Every count is positive: only observed outcomes are listed. *)
Definition positive_counts (counts : list (string * Z)) : Prop :=
  Forall (fun kc => 0 < kc.2) counts.

(** What a computation adds to the trace: every run extends the trace by
    events that all satisfy [P]. *)
Definition emits {A} (P : event -> Prop) (m : M A) : Prop :=
  forall w, exists evs,
    trace (m w).2 = trace w ++ evs /\ Forall P evs.

(** The lines of the statistics block. *)
Definition is_statistics_line (e : event) : bool :=
  match e with
  | Printed (Lit a :: Lit b :: _) =>
      (String.eqb a nl && String.eqb b "📈 Statistics:")
      || String.eqb a "   Min: " || String.eqb a "   Max: "
      || String.eqb a "   Mean: "
  | Printed (Lit a :: _) =>
      String.eqb a "   Min: " || String.eqb a "   Max: "
      || String.eqb a "   Mean: "
  | _ => false
  end.

(** The request description the specification asks for: [n] sources, one
    Hadamard gate on each in index order, then the joint measurement of all
    of them (a barrier and one measurement per source into its own bit). *)
Definition hadamard_then_measure (n : nat) : QuantumCircuit :=
  mkCircuit n n
    (map H (seq 0 n) ++ [Barrier (seq 0 n)]
     ++ map (fun q => Measure q q) (seq 0 n)).

(** ** Sample inputs

    A remote service and plotting library on which every call succeeds: one
    three-qubit backend, a transpiler that leaves the circuit as it is, a
    job that returns [answer], and a histogram call that returns a figure. *)
Definition stub_env (answer : list (string * Z)) : Env :=
  {| connect := fun channel token => Ok (ServiceHandle channel token);
     least_busy := fun _ => Ok (mkBackend "ibm_stub" 3 None);
     transpile := fun _ _ c => Ok c;
     depth := fun c => Z.of_nat (length (data c));
     set_default_shots := fun _ => Ok tt;
     sampler_run := fun _ _ _ => Ok "job-0";
     job_result := fun _ => Ok answer;
     plot_histogram := fun _ => Ok (Some FigureHandle);
     fig_savefig := fun _ _ => Ok tt;
     plt := fun _ => Ok tt |}.

(** The same, except that the histogram call raises. *)
Definition histogram_raises_env (answer : list (string * Z)) : Env :=
  {| connect := connect (stub_env answer);
     least_busy := least_busy (stub_env answer);
     transpile := transpile (stub_env answer);
     depth := depth (stub_env answer);
     set_default_shots := set_default_shots (stub_env answer);
     sampler_run := sampler_run (stub_env answer);
     job_result := job_result (stub_env answer);
     plot_histogram := fun _ => Raise (LibraryError "VisualizationError");
     fig_savefig := fig_savefig (stub_env answer);
     plt := plt (stub_env answer) |}.

(** The same, except that the histogram call returns no figure and pyplot
    cannot write the file: both rendering paths fail. *)
Definition no_rendering_env (answer : list (string * Z)) : Env :=
  {| connect := connect (stub_env answer);
     least_busy := least_busy (stub_env answer);
     transpile := transpile (stub_env answer);
     depth := depth (stub_env answer);
     set_default_shots := set_default_shots (stub_env answer);
     sampler_run := sampler_run (stub_env answer);
     job_result := job_result (stub_env answer);
     plot_histogram := fun _ => Ok None;
     fig_savefig := fig_savefig (stub_env answer);
     plt := fun f => if String.eqb f "savefig"
                     then Raise (LibraryError "OSError") else Ok tt |}.

(** The same as [stub_env], except that the histogram call returns no
    figure: the direct rendering is used, and succeeds. *)
Definition direct_rendering_env (answer : list (string * Z)) : Env :=
  {| connect := connect (stub_env answer);
     least_busy := least_busy (stub_env answer);
     transpile := transpile (stub_env answer);
     depth := depth (stub_env answer);
     set_default_shots := set_default_shots (stub_env answer);
     sampler_run := sampler_run (stub_env answer);
     job_result := job_result (stub_env answer);
     plot_histogram := fun _ => Ok None;
     fig_savefig := fig_savefig (stub_env answer);
     plt := plt (stub_env answer) |}.


(** The same as [stub_env], except that the library accepts only a
    non-negative number of shots. *)
Definition checked_shots_env (answer : list (string * Z)) : Env :=
  {| connect := connect (stub_env answer);
     least_busy := least_busy (stub_env answer);
     transpile := transpile (stub_env answer);
     depth := depth (stub_env answer);
     set_default_shots :=
       fun v => if v <? 0 then Raise (LibraryError "ValidationError")
                else Ok tt;
     sampler_run := sampler_run (stub_env answer);
     job_result := job_result (stub_env answer);
     plot_histogram := plot_histogram (stub_env answer);
     fig_savefig := fig_savefig (stub_env answer);
     plt := plt (stub_env answer) |}.


(** The pyplot calls of the direct rendering, in order. *)
Definition direct_rendering_calls : list string :=
  ["figure"; "bar"; "xlabel"; "ylabel"; "title"; "grid"; "tight_layout";
   "savefig"; "show"].

(** The rendering fails with [e]: on the path the reporter takes, the
    first library call that does not succeed raises [e]. That is the
    histogram call itself; or, with a figure, saving it or showing it; or,
    without a figure, one of the pyplot calls of the direct rendering, the
    ones before it having succeeded. *)
Definition rendering_fails (env : Env) (counts : list (string * Z)) (e : exn)
  : Prop :=
  plot_histogram env counts = Raise e
  \/ (exists fig,
         plot_histogram env counts = Ok (Some fig)
         /\ (fig_savefig env fig "qrng_results.png" = Raise e
             \/ (fig_savefig env fig "qrng_results.png" = Ok tt
                 /\ plt env "show" = Raise e)))
  \/ (plot_histogram env counts = Ok None
      /\ exists before f after,
           direct_rendering_calls = before ++ f :: after
           /\ Forall (fun g => plt env g = Ok tt) before
           /\ plt env f = Raise e).

(** Every library call of the rendering succeeds, on the path with a figure
    or on the direct one. *)
Definition rendering_succeeds (env : Env) (counts : list (string * Z)) : Prop :=
  (exists fig,
      plot_histogram env counts = Ok (Some fig)
      /\ fig_savefig env fig "qrng_results.png" = Ok tt
      /\ plt env "show" = Ok tt)
  \/ (plot_histogram env counts = Ok None
      /\ Forall (fun g => plt env g = Ok tt) direct_rendering_calls).

Definition sample_world : World := mkWorld [7; 1; 4; 0; 2; 9]%nat [].

Definition sample_counts : list (string * Z) := [("000", 2); ("111", 3)].

Definition four_outcomes : list (string * Z) :=
  [("00", 10); ("01", 20); ("10", 30); ("11", 40)].


(** The line of the distribution for one outcome, given the number of
    samples. *)
Definition distribution_line (total : nat) (kc : string * Z) : event :=
  Printed [Lit "   "; Lit kc.1; Lit " (decimal: "; IntF (bin_value kc.1) 3;
           Lit ") → "; IntF kc.2 4; Lit " times (";
           FloatF (inject_Z kc.2 / inject_Z (Z.of_nat total) * 100)%Q 1;
           Lit "%)"].

(** [a] comes before [b] in an order of decreasing count. *)
Definition count_ge (a b : string * Z) : Prop := b.2 <= a.2.

(** * Properties *)

(** ** The effect monad *)

Lemma bind_eq {A B} (m : M A) (k : A -> M B) w :
  (m ≫= k) w = match m w with
               | (Ok a, w') => k a w'
               | (Raise e, w') => (Raise e, w')
               end.
Proof. reflexivity. Qed.

Lemma bind_Ok {A B} (m : M A) (k : A -> M B) w a w' :
  m w = (Ok a, w') -> (m ≫= k) w = k a w'.
Proof. intros E. rewrite bind_eq, E. reflexivity. Qed.

Lemma bind_Raise {A B} (m : M A) (k : A -> M B) w e w' :
  m w = (Raise e, w') -> (m ≫= k) w = (Raise e, w').
Proof. intros E. rewrite bind_eq, E. reflexivity. Qed.

Lemma bind_Ok_inv {A B} (m : M A) (k : A -> M B) w b w' :
  (m ≫= k) w = (Ok b, w') ->
  exists a w1, m w = (Ok a, w1) /\ k a w1 = (Ok b, w').
Proof.
  rewrite bind_eq. destruct (m w) as [[a|e] w1]; [eauto | discriminate].
Qed.

(** ** The models of the built-ins on concrete inputs *)

Example int2_literals :
  map int2 ["101"; " 101 "; "-1"; "0b_1"; "1_0"; "+0b1"; "00"]
  = [Ok 5; Ok 5; Ok (-1); Ok 1; Ok 2; Ok 1; Ok 0].
Proof. reflexivity. Qed.

Example int2_malformed :
  map int2 [""; "2"; "0b"; "0b__1"; "_1"; "1_"; "1 0"; "- 1"; "0_b1"]
  = replicate 9 (Raise ValueError).
Proof. reflexivity. Qed.

Example sorted_by_count_stable :
  sorted_by_count [("a", 1); ("b", 2); ("c", 1); ("d", 2)]
  = [("b", 2); ("d", 2); ("a", 1); ("c", 1)].
Proof. reflexivity. Qed.

Example replicate_negative_count :
  (extract_random_numbers [("1", -3); ("10", 2)] sample_world).1 = Ok [2; 2].
Proof. reflexivity. Qed.

(** ** [int(s, 2)] on binary strings *)

Lemma is_bit_cases c : is_bit c = true -> c = "0"%char \/ c = "1"%char.
Proof.
  unfold is_bit. intros Hc. apply orb_true_iff in Hc.
  destruct Hc as [Hc|Hc]; apply Ascii.eqb_eq in Hc; auto.
Qed.

Lemma is_binary_cons c s :
  is_binary (String c s) = true ->
  (c = "0"%char \/ c = "1"%char) /\ is_binary s = true.
Proof.
  simpl. intros Hb. apply andb_true_iff in Hb as [Hc Hs].
  split; [by apply is_bit_cases | done].
Qed.

Lemma bin_value_bounds s :
  is_binary s = true -> 0 <= bin_value s < 2 ^ Z.of_nat (String.length s).
Proof.
  induction s as [|c s IH]; [simpl; lia|].
  intros Hb. apply is_binary_cons in Hb as [Hc Hs].
  specialize (IH Hs). cbn [bin_value String.length].
  rewrite Nat2Z.inj_succ, Z.pow_succ_r by lia.
  destruct Hc as [-> | ->]; simpl; lia.
Qed.

(** The digit loop reads a binary string to its end, by Horner's rule. *)
Lemma scan_bits_binary s acc digits :
  is_binary s = true ->
  scan_bits s false acc digits
  = Some (acc * 2 ^ Z.of_nat (String.length s) + bin_value s,
          (digits + String.length s)%nat, "").
Proof.
  revert acc digits. induction s as [|c s IH]; intros acc digits Hb.
  - simpl. do 3 f_equal; [lia | lia].
  - apply is_binary_cons in Hb as [Hc Hs].
    cbn [bin_value String.length].
    rewrite Nat2Z.inj_succ, Z.pow_succ_r by lia.
    destruct Hc as [-> | ->]; cbn [scan_bits]; rewrite (IH _ _ Hs);
      simpl Ascii.eqb; cbv iota; do 3 f_equal; lia.
Qed.

Lemma int2_binary s :
  is_binary s = true -> s <> "" -> int2 s = Ok (bin_value s).
Proof.
  intros Hb Hne. destruct s as [|c s]; [done|].
  pose proof (scan_bits_binary _ 0 0%nat Hb) as Hscan.
  apply is_binary_cons in Hb as [Hc Hs].
  assert (Hpre : skip_prefix (String c s) = String c s).
  { destruct Hc as [-> | ->]; [|done].
    destruct s as [|d s]; [done|].
    apply is_binary_cons in Hs as [[-> | ->] _]; done. }
  unfold int2.
  replace (skip_spaces (String c s)) with (String c s)
    by (destruct Hc as [-> | ->]; done).
  replace (skip_sign (String c s)) with (false, String c s)
    by (destruct Hc as [-> | ->]; done).
  rewrite Hpre, Hscan. cbn [String.length Nat.add skip_spaces].
  rewrite Z.mul_0_l, Z.add_0_l.
  destruct Hc as [-> | ->]; reflexivity.
Qed.

(** ** [random.shuffle] permutes its argument *)

Lemma insert_swap_head (t : list Z) j a b :
  t !! j = Some b -> b :: <[j := a]> t ≡ₚ a :: t.
Proof.
  revert j. induction t as [|c t IH]; intros [|j] Hj; simplify_eq/=.
  - apply perm_swap.
  - etrans; [apply perm_swap|]. etrans; [|apply perm_swap].
    f_equiv. by apply IH.
Qed.

Lemma insert_swap_perm (x : list Z) i j xi xj :
  x !! i = Some xi -> x !! j = Some xj ->
  <[j := xi]> (<[i := xj]> x) ≡ₚ x.
Proof.
  revert i j. induction x as [|c x IH]; intros [|i] [|j] Hi Hj;
    simplify_eq/=; try done.
  - by apply insert_swap_head.
  - by apply insert_swap_head.
  - f_equiv. by eapply IH.
Qed.

Lemma swap_in_range (x : list Z) i j w :
  (i < length x)%nat -> (j < length x)%nat ->
  exists x', swap x i j w = (Ok x', w) /\ x' ≡ₚ x.
Proof.
  intros Hi Hj. unfold swap.
  destruct (lookup_lt_is_Some_2 x i Hi) as [xi Exi].
  destruct (lookup_lt_is_Some_2 x j Hj) as [xj Exj].
  rewrite Exi, Exj. eexists; split; [reflexivity|].
  by eapply insert_swap_perm.
Qed.

Lemma randbelow_spec k w :
  (0 < k)%nat ->
  exists j g, randbelow k w = (Ok j, mkWorld g (trace w)) /\ (j < k)%nat.
Proof.
  intros Hk. unfold randbelow. destruct w as [[|r g] tr]; simpl.
  - exists 0%nat, []. done.
  - exists (r mod k)%nat, g. split; [done|]. apply Nat.mod_upper_bound. lia.
Qed.

Lemma shuffle_loop_perm (idx : list nat) (x : list Z) w :
  Forall (fun i => (i < length x)%nat) idx ->
  exists x' g,
    for_each idx (fun i x => j ← randbelow (i + 1); swap x i j) x w
    = (Ok x', mkWorld g (trace w)) /\ x' ≡ₚ x.
Proof.
  revert x w. induction idx as [|i idx IH]; intros x w Hidx.
  - exists x, (rng w). destruct w; done.
  - apply list.Forall_cons in Hidx as [Hi Hidx].
    destruct (randbelow_spec (i + 1) w) as (j & g & Hr & Hj); [lia|].
    destruct (swap_in_range x i j (mkWorld g (trace w))) as (x1 & Hs & Hp);
      [lia | lia |].
    destruct (IH x1 (mkWorld g (trace w))) as (x' & g' & Hl & Hp').
    { eapply list.Forall_impl; [exact Hidx|]. intros k Hk. simpl.
      by rewrite (Permutation_length Hp). }
    exists x', g'. split; [|by rewrite Hp'].
    cbn [for_each]. erewrite bind_Ok; [exact Hl|].
    erewrite bind_Ok; [exact Hs | exact Hr].
Qed.

Lemma shuffle_perm (x : list Z) w :
  exists x' g, shuffle x w = (Ok x', mkWorld g (trace w)) /\ x' ≡ₚ x.
Proof.
  apply shuffle_loop_perm. apply List.Forall_forall. intros i Hi.
  unfold range in Hi. rewrite <- List.in_rev in Hi. apply List.in_seq in Hi. lia.
Qed.

(** ** The decoder *)

Lemma decode_loop_ok (counts : list (string * Z)) (acc : list Z) w :
  outcome_keys counts ->
  for_each counts
    (fun '(binary_string, count) random_numbers =>
       decimal_value ← lift (int2 binary_string);
       ret (random_numbers ++ replicate (Z.to_nat count) decimal_value))
    acc w
  = (Ok (acc ++ expand counts), w).
Proof.
  revert acc. induction counts as [|[k c] counts IH]; intros acc Hk.
  - simpl. by rewrite app_nil_r.
  - apply list.Forall_cons in Hk as [[Hb Hne] Hk]. simpl in Hb, Hne.
    cbn [for_each]. erewrite bind_Ok.
    + rewrite (IH _ Hk). unfold expand. simpl. by rewrite app_assoc.
    + erewrite bind_Ok; [reflexivity|].
      unfold lift. by rewrite (int2_binary _ Hb Hne).
Qed.

Lemma extract_random_numbers_ok counts w :
  outcome_keys counts ->
  exists l w',
    extract_random_numbers counts w = (Ok l, w') /\ l ≡ₚ expand counts.
Proof.
  intros Hk. unfold extract_random_numbers.
  set (w1 := (print [Lit nl; Lit "🎲 Converting quantum measurements to random numbers..."] w).2).
  destruct (shuffle_perm (expand counts) w1) as (l & g & Hs & Hp).
  exists l. eexists. split; [|exact Hp].
  erewrite bind_Ok; [|reflexivity].
  erewrite bind_Ok; [|by apply (decode_loop_ok counts [] _ Hk)].
  erewrite bind_Ok; [|exact Hs].
  reflexivity.
Qed.

Lemma binary_keys_outcome_keys n counts :
  (1 <= n)%nat -> binary_keys n counts -> outcome_keys counts.
Proof.
  intros Hn. apply Forall_impl. intros [k c] [Hb Hl]; simpl in *.
  split; [done|]. intros ->. simpl in Hl. lia.
Qed.

Lemma py_sum_from (l : list Z) a : fold_left Z.add l a = a + py_sum l.
Proof.
  unfold py_sum. revert a. induction l as [|x l IH]; intros a; simpl; [lia|].
  rewrite (IH (a + x)), (IH (0 + x)). lia.
Qed.

Lemma length_expand counts :
  nonneg_counts counts ->
  Z.of_nat (length (expand counts)) = total_count counts.
Proof.
  unfold total_count, expand.
  induction counts as [|[k c] counts IH]; intros Hc; [done|].
  apply list.Forall_cons in Hc as [Hc0 Hc]. simpl in Hc0.
  cbn [flat_map fmap list_fmap snd]. rewrite length_app, length_replicate.
  unfold py_sum at 1. cbn [fold_left]. rewrite py_sum_from.
  rewrite Nat2Z.inj_add, (IH Hc). simpl. lia.
Qed.

Lemma expand_range n counts :
  binary_keys n counts ->
  Forall (fun v => 0 <= v <= 2 ^ Z.of_nat n - 1) (expand counts).
Proof.
  unfold expand. induction 1 as [|[k c] counts [Hb Hl] _ IH]; simpl; [done|].
  apply Forall_app. split; [|done].
  apply Forall_replicate. simpl in Hb, Hl.
  pose proof (bin_value_bounds k Hb) as Hv. rewrite Hl in Hv. lia.
Qed.

Lemma extract_random_numbers_empty_key c counts w :
  (extract_random_numbers (("", c) :: counts) w).1 = Raise ValueError.
Proof. reflexivity. Qed.

(** C1. For every outcome-count mapping (keys that are non-empty binary
    strings, counts that are not negative) the decoder returns a sample list,
    and its length is the sum of the mapping's counts. *)
Theorem decoder_preserves_total_count counts w :
  outcome_keys counts -> nonneg_counts counts ->
  exists l w',
    extract_random_numbers counts w = (Ok l, w')
    /\ Z.of_nat (length l) = total_count counts.
Proof.
  intros Hk Hc.
  destruct (extract_random_numbers_ok counts w Hk) as (l & w' & He & Hp).
  exists l, w'. split; [done|].
  by rewrite (Permutation_length Hp), length_expand.
Qed.

Lemma decoder_preserves_total_count_witness :
  exists l w',
    extract_random_numbers sample_counts sample_world = (Ok l, w')
    /\ Z.of_nat (length l) = total_count sample_counts.
Proof.
  apply (decoder_preserves_total_count sample_counts sample_world).
  - repeat constructor; simpl; discriminate.
  - repeat constructor; simpl; lia.
Defined.

(** C2. For every outcome-count mapping the decoder's output is, as a
    multiset, each outcome's integer value repeated count times; two runs on
    the same mapping, whatever the generator states, return permutations of
    one another. *)
Theorem decoder_multiset_invariant counts w1 w2 :
  outcome_keys counts ->
  exists l1 w1' l2 w2',
    extract_random_numbers counts w1 = (Ok l1, w1')
    /\ extract_random_numbers counts w2 = (Ok l2, w2')
    /\ l1 ≡ₚ expand counts
    /\ l2 ≡ₚ l1.
Proof.
  intros Hk.
  destruct (extract_random_numbers_ok counts w1 Hk) as (l1 & w1' & He1 & Hp1).
  destruct (extract_random_numbers_ok counts w2 Hk) as (l2 & w2' & He2 & Hp2).
  exists l1, w1', l2, w2'. repeat split; try done.
  by rewrite Hp1, Hp2.
Qed.

Lemma decoder_multiset_invariant_witness :
  exists l1 w1' l2 w2',
    extract_random_numbers sample_counts sample_world = (Ok l1, w1')
    /\ extract_random_numbers sample_counts (mkWorld [] []) = (Ok l2, w2')
    /\ l1 ≡ₚ expand sample_counts
    /\ l2 ≡ₚ l1.
Proof.
  apply (decoder_multiset_invariant sample_counts sample_world (mkWorld [] [])).
  repeat constructor; simpl; discriminate.
Defined.

(** C3. When the keys of the mapping are binary strings of length [n],
    every integer the decoder returns lies in [0, 2^n - 1]; and for
    [n >= 1] the decoder does return. *)
Theorem decoder_output_in_range n counts w :
  binary_keys n counts ->
  (forall l w', extract_random_numbers counts w = (Ok l, w') ->
                Forall (fun v => 0 <= v <= 2 ^ Z.of_nat n - 1) l)
  /\ ((1 <= n)%nat ->
      exists l w', extract_random_numbers counts w = (Ok l, w')).
Proof.
  intros Hk. split.
  - intros l w' He.
    assert (Hout : outcome_keys counts).
    { destruct n as [|n]; [|eapply binary_keys_outcome_keys; [|done]; lia].
      destruct counts as [|[k c] counts]; [constructor|].
      apply list.Forall_cons in Hk as [[_ Hl] _]. simpl in Hl.
      destruct k; [|done].
      pose proof (extract_random_numbers_empty_key c counts w) as Hr.
      rewrite He in Hr. done. }
    destruct (extract_random_numbers_ok counts w Hout) as (l' & w'' & He' & Hp).
    rewrite He in He'. injection He' as -> ->.
    rewrite Hp. by apply expand_range.
  - intros Hn.
    destruct (extract_random_numbers_ok counts w) as (l & w' & He & _);
      [by eapply binary_keys_outcome_keys | eauto].
Qed.

Lemma decoder_output_in_range_witness :
  (forall l w',
      extract_random_numbers sample_counts sample_world = (Ok l, w') ->
      Forall (fun v => 0 <= v <= 2 ^ Z.of_nat 3 - 1) l)
  /\ ((1 <= 3)%nat ->
      exists l w',
        extract_random_numbers sample_counts sample_world = (Ok l, w')).
Proof.
  apply (decoder_output_in_range 3 sample_counts sample_world).
  repeat constructor.
Defined.

(** C7. On the empty mapping the decoder returns the empty list and raises
    nothing; it only prints its two progress lines. *)
Theorem decoder_empty_mapping w :
  extract_random_numbers [] w
  = (Ok [],
     mkWorld (rng w)
       (trace w
        ++ [Printed [Lit nl; Lit "🎲 Converting quantum measurements to random numbers..."];
            Printed [Lit "✅ Generated "; IntF 0 0; Lit " random numbers!"]])).
Proof.
  unfold extract_random_numbers, shuffle, range. simpl.
  unfold mbind, M_bind, bind, print, emit, ret. simpl.
  by rewrite <- app_assoc.
Qed.

(** ** What a computation adds to the trace *)

Create HintDb emits discriminated.

Lemma emits_ret {A} P (a : A) : emits P (ret a).
Proof. intros w. exists []. by rewrite app_nil_r. Qed.

Lemma emits_raise {A} P e : emits P (@raise A e).
Proof. intros w. exists []. by rewrite app_nil_r. Qed.

Lemma emits_lift {A} P (r : res A) : emits P (lift r).
Proof. intros w. exists []. by rewrite app_nil_r. Qed.

Lemma emits_emit (P : event -> Prop) e : P e -> emits P (emit e).
Proof. intros He w. exists [e]. split; [done | by constructor]. Qed.

Lemma emits_print (P : event -> Prop) l : P (Printed l) -> emits P (print l).
Proof. apply emits_emit. Qed.

Lemma emits_bind {A B} P (m : M A) (k : A -> M B) :
  emits P m -> (forall a, emits P (k a)) -> emits P (m ≫= k).
Proof.
  intros Hm Hk w. rewrite bind_eq.
  destruct (Hm w) as (evs & Ht & Hp).
  destruct (m w) as [[a|e] w1]; simpl in Ht; [|by exists evs].
  destruct (Hk a w1) as (evs' & Ht' & Hp').
  exists (evs ++ evs'). split; [|by apply Forall_app].
  by rewrite Ht', Ht, app_assoc.
Qed.

Lemma emits_try_except {A} P (body : M A) handler :
  emits P body -> (forall e, emits P (handler e)) ->
  emits P (try_except body handler).
Proof.
  intros Hm Hk w. unfold try_except.
  destruct (Hm w) as (evs & Ht & Hp).
  destruct (body w) as [[a|e] w1]; simpl in Ht; [by exists evs|].
  destruct (Hk e w1) as (evs' & Ht' & Hp').
  exists (evs ++ evs'). split; [|by apply Forall_app].
  by rewrite Ht', Ht, app_assoc.
Qed.

Lemma emits_for_each {A S} P (l : list A) (body : A -> S -> M S) s :
  (forall a s, emits P (body a s)) -> emits P (for_each l body s).
Proof.
  intros Hb. revert s. induction l as [|a l IH]; intros s; simpl.
  - apply emits_ret.
  - apply emits_bind; [apply Hb | apply IH].
Qed.

Lemma emits_randbelow P k : emits P (randbelow k).
Proof.
  intros w. exists []. rewrite app_nil_r. unfold randbelow.
  by destruct (rng w).
Qed.

Lemma emits_swap P x i j : emits P (swap x i j).
Proof.
  unfold swap. destruct (x !! j), (x !! i);
    auto using emits_ret, emits_raise.
Qed.

#[global] Hint Resolve emits_ret emits_raise emits_lift emits_randbelow
  emits_swap : emits.

(** Splits a computation into its calls; what is left are the side
    conditions on the events emitted. *)
Ltac emits_step :=
  match goal with
  | |- emits _ (_ ≫= _) => apply emits_bind; [|intros]
  | |- emits _ (for_each _ _ _) => apply emits_for_each; intros
  | |- emits _ (try_except _ _) => apply emits_try_except; [|intros]
  | |- emits _ (print _) => apply emits_print
  | |- emits _ (emit _) => apply emits_emit
  | |- emits _ (match ?x with _ => _ end) => destruct x
  | |- emits _ (let '(_, _) := ?x in _) => destruct x
  | |- emits _ ((let '(_, _) := ?x in _) _) => destruct x
  | |- emits _ _ => solve [auto with emits]
  end.

Ltac emits_all := repeat emits_step.

(** ** The circuit builder *)

Lemma hadamard_loop a k qc w :
  (a + k <= num_qubits qc)%nat ->
  for_each (seq a k) (fun qubit qc => lift (h qubit qc)) qc w
  = (Ok (mkCircuit (num_qubits qc) (num_clbits qc)
           (data qc ++ map H (seq a k))), w).
Proof.
  revert a qc. induction k as [|k IH]; intros a qc Hk.
  - simpl. rewrite app_nil_r. by destruct qc.
  - cbn [seq for_each]. erewrite bind_Ok.
    2:{ unfold lift, h. destruct (Nat.ltb_spec a (num_qubits qc)); [done|lia]. }
    rewrite IH by (simpl; lia). simpl. by rewrite <- app_assoc.
Qed.

Lemma create_qrng_circuit_nonneg (n : nat) w :
  create_qrng_circuit (Some (Z.of_nat n)) w
  = (Ok (hadamard_then_measure n),
     mkWorld (rng w)
       (trace w
        ++ [Printed [Lit "🔬 Creating quantum circuit with ";
                     IntF (Z.of_nat n) 0; Lit " qubits..."];
            Printed [Lit "✅ Quantum circuit created!"];
            Printed [Lit "   Circuit will generate random numbers from 0 to ";
                     IntF (2 ^ Z.of_nat n - 1) 0]])).
Proof.
  unfold create_qrng_circuit. cbn [or_default].
  erewrite bind_Ok; [|reflexivity].
  erewrite bind_Ok.
  2:{ unfold lift, new_circuit.
      destruct (Z.ltb_spec (Z.of_nat n) 0); [lia | reflexivity]. }
  erewrite bind_Ok.
  2:{ unfold range. rewrite Nat2Z.id, Nat.sub_0_r.
      apply hadamard_loop. simpl. lia. }
  unfold pow2_minus_1. destruct (Z.leb_spec 0 (Z.of_nat n)); [|lia].
  unfold mbind, M_bind, bind, print, emit, ret, measure_all, range,
    hadamard_then_measure. simpl.
  rewrite Nat.sub_0_r, <- !app_assoc. reflexivity.
Qed.

Lemma create_qrng_circuit_negative (n : Z) w :
  n < 0 ->
  create_qrng_circuit (Some n) w
  = (Raise (LibraryError "CircuitError"),
     mkWorld (rng w)
       (trace w
        ++ [Printed [Lit "🔬 Creating quantum circuit with ";
                     IntF n 0; Lit " qubits..."]])).
Proof.
  intros Hn. unfold create_qrng_circuit. cbn [or_default].
  erewrite bind_Ok; [|reflexivity].
  erewrite bind_Raise; [reflexivity|].
  unfold lift, new_circuit. destruct (Z.ltb_spec n 0); [done | lia].
Qed.

Lemma create_qrng_circuit_default w :
  create_qrng_circuit None w = create_qrng_circuit (Some 8) w.
Proof. reflexivity. Qed.

(** C9. The circuit builder is deterministic: its result does not depend on
    the world it runs in (generator state, earlier output), so two calls
    with the same [n] give the same request description; for [n >= 0] this
    is [n] qubits, one Hadamard gate per source, then the joint measurement
    of all sources. *)
Theorem builder_deterministic :
  (forall (num_qubits : option Z) w1 w2,
      (create_qrng_circuit num_qubits w1).1
      = (create_qrng_circuit num_qubits w2).1)
  /\ (forall (n : nat) w,
         (create_qrng_circuit (Some (Z.of_nat n)) w).1
         = Ok (hadamard_then_measure n)).
Proof.
  assert (Hsome : forall n w1 w2,
             (create_qrng_circuit (Some n) w1).1
             = (create_qrng_circuit (Some n) w2).1).
  { intros n w1 w2. destruct (Z.lt_ge_cases n 0) as [Hn|Hn].
    - by rewrite !create_qrng_circuit_negative.
    - rewrite <- (Z2Nat.id n) by done.
      by rewrite !create_qrng_circuit_nonneg. }
  split.
  - intros [n|] w1 w2; [apply Hsome|].
    rewrite !create_qrng_circuit_default. apply Hsome.
  - intros n w. by rewrite create_qrng_circuit_nonneg.
Qed.



(** ** The executor *)

Ltac run_M :=
  unfold mbind, M_bind, bind, lift, print, emit, ret, raise; cbn.


Lemma execute_on_quantum_hardware_ok env svc c shots w b isa job counts :
  least_busy env svc = Ok b ->
  transpile env b 1 c = Ok isa ->
  set_default_shots env shots = Ok tt ->
  sampler_run env b isa shots = Ok job ->
  job_result env job = Ok counts ->
  exists w',
    execute_on_quantum_hardware env svc c (Some shots) w
    = (Ok (counts, name b), w')
    /\ Submitted isa shots ∈ trace w'.
Proof.
  intros Hb Ht Hs Hr Hj. unfold execute_on_quantum_hardware.
  cbn [or_default]. run_M.
  rewrite Hb. cbn. rewrite Ht. cbn. rewrite Hs. cbn. rewrite Hr. cbn.
  rewrite Hj. cbn. eexists. split; [reflexivity|]. cbn. set_solver.
Qed.



(** ** The reporter's statistics depend only on the multiset of samples *)

Lemma fold_left_min_spec (l : list Z) x :
  fold_left Z.min l x ∈ x :: l /\ Forall (Z.le (fold_left Z.min l x)) (x :: l).
Proof.
  revert x. induction l as [|y l IH]; intros x; simpl.
  - split; [set_solver | repeat constructor; lia].
  - destruct (IH (Z.min x y)) as [Hin Hle].
    apply list.Forall_cons in Hle as [Hm Hle]. split.
    + clear IH. apply elem_of_cons in Hin as [Hin|Hin]; [|set_solver].
      rewrite Hin. destruct (Z.min_spec x y) as [[_ ->]|[_ ->]]; set_solver.
    + repeat constructor; [lia | lia | done].
Qed.

Lemma fold_left_max_spec (l : list Z) x :
  fold_left Z.max l x ∈ x :: l /\ Forall (Z.ge (fold_left Z.max l x)) (x :: l).
Proof.
  revert x. induction l as [|y l IH]; intros x; simpl.
  - split; [set_solver | repeat constructor; lia].
  - destruct (IH (Z.max x y)) as [Hin Hle].
    apply list.Forall_cons in Hle as [Hm Hle]. split.
    + clear IH. apply elem_of_cons in Hin as [Hin|Hin]; [|set_solver].
      rewrite Hin. destruct (Z.max_spec x y) as [[_ ->]|[_ ->]]; set_solver.
    + repeat constructor; [lia | lia | done].
Qed.

(** [min(l)] is the member of [l] below all the others. *)
Lemma py_min_intro (l : list Z) m :
  m ∈ l -> Forall (Z.le m) l -> py_min l = Ok m.
Proof.
  intros Hin Hle. destruct l as [|x l]; [by apply elem_of_nil in Hin|].
  simpl. f_equal. destruct (fold_left_min_spec l x) as [Hin' Hle'].
  rewrite list.Forall_forall in Hle, Hle'.
  apply Z.le_antisymm; [apply Hle' | apply Hle]; done.
Qed.

Lemma py_max_intro (l : list Z) m :
  m ∈ l -> Forall (Z.ge m) l -> py_max l = Ok m.
Proof.
  intros Hin Hle. destruct l as [|x l]; [by apply elem_of_nil in Hin|].
  simpl. f_equal. destruct (fold_left_max_spec l x) as [Hin' Hle'].
  rewrite list.Forall_forall in Hle, Hle'.
  apply Z.le_antisymm; [apply Z.ge_le, Hle | apply Z.ge_le, Hle']; done.
Qed.

Lemma py_min_perm (l l' : list Z) : l ≡ₚ l' -> py_min l = py_min l'.
Proof.
  intros Hp. destruct l as [|x l].
  - by apply Permutation_nil_l in Hp as ->.
  - destruct (fold_left_min_spec l x) as [Hin Hle].
    symmetry. apply py_min_intro.
    + by rewrite <- Hp.
    + by rewrite <- Hp.
Qed.

Lemma py_max_perm (l l' : list Z) : l ≡ₚ l' -> py_max l = py_max l'.
Proof.
  intros Hp. destruct l as [|x l].
  - by apply Permutation_nil_l in Hp as ->.
  - destruct (fold_left_max_spec l x) as [Hin Hle].
    symmetry. apply py_max_intro.
    + by rewrite <- Hp.
    + by rewrite <- Hp.
Qed.

Lemma py_sum_cons x (l : list Z) : py_sum (x :: l) = x + py_sum l.
Proof. unfold py_sum at 1. simpl. apply py_sum_from. Qed.

Lemma py_sum_perm (l l' : list Z) : l ≡ₚ l' -> py_sum l = py_sum l'.
Proof.
  induction 1 as [|x l l' _ IH|x y l|l l' l'' _ IH1 _ IH2];
    rewrite ?py_sum_cons; [done | lia | lia | congruence].
Qed.

Lemma len_set_perm (l l' : list Z) : l ≡ₚ l' -> len_set l = len_set l'.
Proof.
  intros Hp. unfold len_set. apply Permutation_length.
  apply NoDup_Permutation; [apply NoDup_remove_dups..|].
  intros x. by rewrite !elem_of_remove_dups, Hp.
Qed.

(** ** The reporter's output *)

Lemma emits_after {A B} P (m : M A) (k : A -> M B) w a w1 :
  m w = (Ok a, w1) -> emits P (k a) ->
  exists evs, trace ((m ≫= k) w).2 = trace w1 ++ evs /\ Forall P evs.
Proof. intros Hm Hk. rewrite (bind_Ok _ _ _ _ _ Hm). apply Hk. Qed.

Lemma summary_block_run l backend_name n w :
  summary_block l backend_name n w
  = (Ok tt,
     mkWorld (rng w)
       (trace w
        ++ [Printed [Lit nl; Lit (str_mul "=" 70)];
            Printed [Lit "🎯 QUANTUM RANDOM NUMBER GENERATOR - RESULTS"];
            Printed [Lit (str_mul "=" 70)];
            Printed [Lit "Backend Used: "; Lit backend_name];
            Printed [Lit "Total Measurements: "; IntF (Z.of_nat (length l)) 0];
            Printed [Lit "Number Range: 0 to "; pow2_minus_1 n];
            Printed [Lit "Unique Values Generated: ";
                     IntF (Z.of_nat (len_set l)) 0];
            Printed [Lit nl; Lit "📊 Sample Random Numbers (first 20):"];
            Printed [ListF (take 20 l)]])).
Proof.
  unfold summary_block. run_M. by rewrite <- !app_assoc.
Qed.

Lemma statistics_block_run (l : list Z) lo hi w :
  l <> [] -> py_min l = Ok lo -> py_max l = Ok hi ->
  statistics_block l w
  = (Ok tt,
     mkWorld (rng w)
       (trace w
        ++ [Printed [Lit nl; Lit "📈 Statistics:"];
            Printed [Lit "   Min: "; IntF lo 0];
            Printed [Lit "   Max: "; IntF hi 0];
            Printed [Lit "   Mean: ";
                     FloatF (inject_Z (py_sum l)
                             / inject_Z (Z.of_nat (length l)))%Q 2]])).
Proof.
  intros Hne Hlo Hhi. destruct l as [|x l]; [done|].
  unfold statistics_block. rewrite Hlo, Hhi. unfold py_truediv.
  destruct (Z.eqb_spec (Z.of_nat (length (x :: l))) 0) as [Hz|_];
    [simpl in Hz; lia|].
  run_M. by rewrite <- !app_assoc.
Qed.

Lemma statistics_block_empty w : statistics_block [] w = (Ok tt, w).
Proof. reflexivity. Qed.

Lemma emits_reporter_tail env counts l backend_name :
  emits (fun e => is_statistics_line e = false)
    (distribution_block counts l;; render_histogram env counts backend_name).
Proof.
  unfold distribution_block, render_histogram. emits_all; reflexivity.
Qed.

(** The reporter's trace: the summary lines, what the statistics block
    prints, the heading of the distribution, then the rest, which holds no
    line of the statistics block. *)
Lemma display_results_trace env counts l backend_name n w :
  exists evs,
    trace (display_results env counts l backend_name n w).2
    = trace (statistics_block l (summary_block l backend_name n w).2).2
      ++ evs
    /\ Printed [Lit nl; Lit "🔬 Measurement Distribution:"] ∈ evs
    /\ Forall (fun e => is_statistics_line e = false) evs.
Proof.
  unfold display_results. rewrite bind_eq, summary_block_run. cbn [snd].
  set (w1 := mkWorld _ _). rewrite bind_eq.
  assert (Hst : exists w2, statistics_block l w1 = (Ok tt, w2)).
  { destruct l as [|x l]; [by exists w1|].
    erewrite statistics_block_run; [eauto | done | reflexivity..]. }
  destruct Hst as [w2 Hst]. rewrite Hst. cbn [snd].
  destruct (emits_reporter_tail env counts l backend_name w2)
    as (evs & Ht & Hp).
  exists evs. split; [done|]. split; [|done].
  revert Ht. unfold distribution_block. rewrite !bind_eq. cbn [print emit].
  set (w3 := mkWorld _ _).
  assert (Hrest : emits (fun _ => True)
            (for_each (take 10 (sorted_by_count counts))
               (fun '(binary, count) (_ : unit) =>
                  decimal ← lift (int2 binary);
                  ratio ← lift (py_truediv count (Z.of_nat (length l)));
                  print [Lit "   "; Lit binary; Lit " (decimal: ";
                         IntF decimal 3; Lit ") → "; IntF count 4;
                         Lit " times ("; FloatF (ratio * 100)%Q 1; Lit "%)"])
               tt;; render_histogram env counts backend_name)).
  { unfold render_histogram. emits_all; done. }
  destruct (Hrest w3) as (evs' & Ht' & _). rewrite bind_eq in Ht'.
  intros Ht. rewrite Ht' in Ht. subst w3. cbn [trace] in Ht.
  rewrite <- app_assoc in Ht. apply app_inv_head in Ht. subst evs.
  set_solver.
Qed.

(** C10. On an empty sample set the reporter skips the statistics block:
    the block itself does nothing and raises nothing, although [min], [max]
    and the division by the sample count would each raise on the empty
    list; the reporter goes on to the distribution, and none of the lines it
    prints is a line of the statistics block. *)
Theorem reporter_skips_statistics_when_empty env counts backend_name n w :
  statistics_block [] w = (Ok tt, w)
  /\ (exists evs,
        trace (display_results env counts [] backend_name n w).2
        = trace w ++ evs
        /\ Printed [Lit nl; Lit "🔬 Measurement Distribution:"] ∈ evs
        /\ Forall (fun e => is_statistics_line e = false) evs)
  /\ py_min [] = Raise ValueError
  /\ py_max [] = Raise ValueError
  /\ py_truediv (py_sum []) (Z.of_nat (length (@nil Z)))
     = Raise ZeroDivisionError.
Proof.
  split; [reflexivity|]. split; [|done].
  destruct (display_results_trace env counts [] backend_name n w)
    as (evs & Ht & Hin & Hp).
  rewrite summary_block_run in Ht. cbn [snd] in Ht.
  rewrite statistics_block_empty in Ht. cbn [snd trace] in Ht.
  rewrite <- app_assoc in Ht.
  eexists. split; [exact Ht|]. split; [set_solver|].
  apply Forall_app. split; [|done].
  unfold pow2_minus_1. destruct (0 <=? n); repeat constructor.
Qed.

(** C8, as the claim states it, fails on the mean: the samples decoded
    from 00:10, 01:20, 10:30, 11:40 sum to 200, so their mean is 2, not
    23/10. *)
Lemma four_outcomes_mean_is_not_23_10 :
  ~ (exists l w1 mean,
        extract_random_numbers four_outcomes sample_world = (Ok l, w1)
        /\ py_truediv (py_sum l) (Z.of_nat (length l)) = Ok mean
        /\ (mean == 23 # 10)%Q).
Proof.
  intros (l & w1 & mean & He & Hm & Hq).
  destruct (extract_random_numbers_ok four_outcomes sample_world)
    as (l' & w1' & He' & Hp); [repeat constructor; done|].
  rewrite He in He'. injection He' as <- <-.
  rewrite (py_sum_perm _ _ Hp), (Permutation_length Hp) in Hm.
  vm_compute in Hm. injection Hm as <-. vm_compute in Hq. discriminate.
Qed.

(** C8, amended. For the mapping 00:10, 01:20, 10:30, 11:40 with [n = 2],
    whatever the shuffle does, the decoder returns 100 samples and the
    reporter prints: total 100, 4 distinct values, minimum 0, maximum 3, and
    a mean that is exactly 2 (the samples sum to 200). *)
Theorem four_outcomes_report env backend_name w :
  exists l w1 evs mean,
    extract_random_numbers four_outcomes w = (Ok l, w1)
    /\ length l = 100%nat
    /\ len_set l = 4%nat
    /\ py_min l = Ok 0
    /\ py_max l = Ok 3
    /\ py_sum l = 200
    /\ py_truediv (py_sum l) (Z.of_nat (length l)) = Ok mean
    /\ (mean == 2 # 1)%Q
    /\ trace (display_results env four_outcomes l backend_name 2 w1).2
       = trace w1 ++ evs
    /\ Printed [Lit "Total Measurements: "; IntF 100 0] ∈ evs
    /\ Printed [Lit "Unique Values Generated: "; IntF 4 0] ∈ evs
    /\ Printed [Lit "   Min: "; IntF 0 0] ∈ evs
    /\ Printed [Lit "   Max: "; IntF 3 0] ∈ evs
    /\ Printed [Lit "   Mean: "; FloatF mean 2] ∈ evs.
Proof.
  destruct (extract_random_numbers_ok four_outcomes w) as (l & w1 & He & Hp).
  { repeat constructor; done. }
  assert (Hlen : length l = 100%nat)
    by (rewrite (Permutation_length Hp); reflexivity).
  assert (Hset : len_set l = 4%nat)
    by (rewrite (len_set_perm _ _ Hp); reflexivity).
  assert (Hlo : py_min l = Ok 0)
    by (rewrite (py_min_perm _ _ Hp); reflexivity).
  assert (Hhi : py_max l = Ok 3)
    by (rewrite (py_max_perm _ _ Hp); reflexivity).
  assert (Hsum : py_sum l = 200)
    by (rewrite (py_sum_perm _ _ Hp); reflexivity).
  destruct (display_results_trace env four_outcomes l backend_name 2 w1)
    as (evs & Ht & _ & _).
  rewrite summary_block_run in Ht. cbn [snd] in Ht.
  erewrite statistics_block_run in Ht; [|by intros -> |exact Hlo|exact Hhi].
  cbn [snd trace] in Ht. rewrite Hlen, Hset, Hsum in Ht.
  rewrite <- !app_assoc in Ht.
  exists l, w1. eexists. exists (inject_Z 200 / inject_Z (Z.of_nat 100))%Q.
  split; [done|]. do 5 (split; [done|]).
  split; [by rewrite Hlen, Hsum|]. split; [reflexivity|].
  split; [exact Ht|]. repeat split; set_solver.
Qed.

(** ** The pipeline *)

Lemma insert_by_count_perm x l : insert_by_count x l ≡ₚ x :: l.
Proof.
  induction l as [|y l IH]; simpl; [done|].
  destruct (x.2 <? y.2); [|done].
  rewrite IH. apply perm_swap.
Qed.

Lemma sorted_by_count_perm items : sorted_by_count items ≡ₚ items.
Proof.
  induction items as [|x items IH]; simpl; [done|].
  by rewrite insert_by_count_perm, IH.
Qed.

Lemma distribution_loop_ok (items : list (string * Z)) (l : list Z) w :
  outcome_keys items -> (items = [] \/ l <> []) ->
  exists w',
    for_each items
      (fun '(binary, count) (_ : unit) =>
         decimal ← lift (int2 binary);
         ratio ← lift (py_truediv count (Z.of_nat (length l)));
         print [Lit "   "; Lit binary; Lit " (decimal: "; IntF decimal 3;
                Lit ") → "; IntF count 4; Lit " times (";
                FloatF (ratio * 100)%Q 1; Lit "%)"])
      tt w
    = (Ok tt, w').
Proof.
  intros Hk Hl. revert w.
  induction Hk as [|[k c] items [Hb Hne] _ IH]; intros w; [by exists w|].
  destruct Hl as [|Hl]; [done|]. simpl in Hb, Hne.
  assert (Hdiv : py_truediv c (Z.of_nat (length l))
                 = Ok (inject_Z c / inject_Z (Z.of_nat (length l)))%Q).
  { unfold py_truediv.
    destruct (Z.eqb_spec (Z.of_nat (length l)) 0) as [Hz|_]; [|done].
    destruct l; [done | simpl in Hz; lia]. }
  cbn [for_each]. rewrite bind_eq.
  unfold lift at 1. rewrite bind_eq. rewrite (int2_binary _ Hb Hne).
  unfold lift at 1. rewrite bind_eq, Hdiv.
  cbn [print emit]. apply IH. by right.
Qed.

Lemma distribution_block_ok counts (l : list Z) w :
  outcome_keys counts -> (counts = [] \/ l <> []) ->
  exists w', distribution_block counts l w = (Ok tt, w').
Proof.
  intros Hk Hl. unfold distribution_block. rewrite bind_eq. cbn [print emit].
  apply distribution_loop_ok.
  - apply Forall_take. unfold outcome_keys. by rewrite sorted_by_count_perm.
  - destruct Hl as [->|Hl]; [by left | by right].
Qed.

Lemma expand_nonempty counts :
  positive_counts counts -> counts <> [] -> expand counts <> [].
Proof.
  intros Hc Hne. destruct counts as [|[k c] counts]; [done|].
  apply list.Forall_cons in Hc as [Hc _]. simpl in Hc.
  unfold expand. simpl. destruct (Z.to_nat c) eqn:E; [lia | done].
Qed.

Lemma setup_quantum_service_ok env svc w :
  connect env "ibm_quantum_platform" "add_your_key_here" = Ok svc ->
  exists w', setup_quantum_service env w = (Ok svc, w').
Proof.
  intros Hc. unfold setup_quantum_service. run_M. rewrite Hc. cbn. eauto.
Qed.

(** When the stages before it succeed, the reporter's outcome is the
    outcome of the rendering. *)
Lemma display_results_outcome env counts l backend_name n w :
  outcome_keys counts -> (counts = [] \/ l <> []) ->
  exists w1,
    display_results env counts l backend_name n w
    = render_histogram env counts backend_name w1.
Proof.
  intros Hk Hl. unfold display_results.
  rewrite bind_eq, summary_block_run. rewrite bind_eq.
  set (w1 := mkWorld _ _).
  assert (Hst : exists w2, statistics_block l w1 = (Ok tt, w2)).
  { destruct l as [|x l]; [by exists w1|].
    erewrite statistics_block_run; [eauto | done | reflexivity..]. }
  destruct Hst as [w2 ->]. rewrite bind_eq.
  destruct (distribution_block_ok counts l w2 Hk Hl) as [w3 ->]. eauto.
Qed.

(** ** The outcome of the rendering *)

(** One call of the computation at the head of the goal. *)
Ltac step_print := rewrite bind_eq; cbn [print emit rng trace].
Ltac step_lift H := rewrite bind_eq; unfold lift at 1; rewrite H.

Lemma decimal_keys_ok counts :
  outcome_keys counts ->
  decimal_keys counts = Ok (map (fun kc => bin_value kc.1) counts).
Proof.
  induction 1 as [|[k c] counts [Hb Hne] _ IH]; [done|].
  simpl in Hb, Hne. cbn [decimal_keys map fst].
  by rewrite (int2_binary _ Hb Hne), IH.
Qed.

Lemma render_histogram_fails env counts backend_name w e :
  outcome_keys counts -> rendering_fails env counts e ->
  exists w', render_histogram env counts backend_name w = (Raise e, w').
Proof.
  intros Hk [Hp | [(fig & Hp & [Hs | [Hs Hsh]])
                  | (Hp & before & f & after & Hsplit & Hpre & Hf)]];
    unfold render_histogram; step_print; step_lift Hp.
  - eauto.
  - step_print. step_lift Hs. eauto.
  - step_print. step_lift Hs. do 2 step_print. step_lift Hsh. eauto.
  - step_print. unfold direct_rendering_calls in Hsplit.
    destruct before as [|g before];
      [injection Hsplit as <- _; step_lift Hf; by eauto|].
    injection Hsplit as <- Hsplit.
    apply list.Forall_cons in Hpre as [Hg Hpre]. step_lift Hg.
    rewrite bind_eq. unfold lift at 1. rewrite (decimal_keys_ok _ Hk).
    destruct before as [|g before];
      [injection Hsplit as <- _; step_lift Hf; by eauto|].
    injection Hsplit as <- Hsplit.
    apply list.Forall_cons in Hpre as [Hg' Hpre]. step_lift Hg'. step_print.
    do 5 (destruct before as [|g before];
            [injection Hsplit as <- _; step_lift Hf; by eauto|];
          injection Hsplit as <- Hsplit;
          let Hc := fresh "Hc" in
          apply list.Forall_cons in Hpre as [Hc Hpre]; step_lift Hc).
    destruct before as [|g before];
      [injection Hsplit as <- _; step_lift Hf; by eauto|].
    injection Hsplit as <- Hsplit.
    apply list.Forall_cons in Hpre as [Hsave Hpre]. step_lift Hsave.
    do 2 step_print.
    destruct before as [|g before];
      [injection Hsplit as <- _; step_lift Hf; by eauto|].
    injection Hsplit as _ Hsplit. by destruct before.
Qed.

Lemma render_histogram_succeeds env counts backend_name w :
  outcome_keys counts -> rendering_succeeds env counts ->
  exists w', render_histogram env counts backend_name w = (Ok tt, w').
Proof.
  intros Hk [(fig & Hp & Hs & Hsh) | (Hp & Hplt)];
    unfold render_histogram; step_print; step_lift Hp; step_print.
  - step_lift Hs. do 2 step_print. step_lift Hsh. unfold emit. eauto.
  - unfold direct_rendering_calls in Hplt.
    repeat match goal with
           | H : Forall _ (_ :: _) |- _ =>
               let Hc := fresh "Hc" in apply list.Forall_cons in H as [Hc H]
           end.
    step_lift Hc. rewrite bind_eq. unfold lift at 1.
    rewrite (decimal_keys_ok _ Hk).
    step_lift Hc0. step_print. step_lift Hc1. step_lift Hc2. step_lift Hc3.
    step_lift Hc4. step_lift Hc5. step_lift Hc6. do 2 step_print.
    step_lift Hc7. unfold emit. eauto.
Qed.

(** C5, as the claim states it, fails: with every earlier stage succeeding,
    a histogram call that raises makes [main] raise, and so does a histogram
    call that returns no figure followed by a failure of the direct
    rendering; in neither case is the sample set returned. *)
Lemma main_fails_when_rendering_fails :
  (main (histogram_raises_env sample_counts) sample_world).1
  = Raise (LibraryError "VisualizationError")
  /\ (main (no_rendering_env sample_counts) sample_world).1
     = Raise (LibraryError "OSError").
Proof. split; vm_compute; reflexivity. Qed.

(** C5, amended. A failure in the rendering stage makes the whole pipeline
    fail: when every earlier stage has succeeded and a library call of the
    rendering raises (the histogram call itself, saving or showing its
    figure, or a pyplot call of the direct rendering tried after the
    histogram call returned no figure), the reporter does not catch the
    exception; [main] prints it with the troubleshooting tips and raises it
    again, and the sample set is not returned. *)
Theorem rendering_failure_is_fatal env w svc b isa job counts e :
  connect env "ibm_quantum_platform" "add_your_key_here" = Ok svc ->
  least_busy env svc = Ok b ->
  transpile env b 1 (hadamard_then_measure 6) = Ok isa ->
  set_default_shots env NUM_SHOTS = Ok tt ->
  sampler_run env b isa NUM_SHOTS = Ok job ->
  job_result env job = Ok counts ->
  outcome_keys counts ->
  positive_counts counts ->
  rendering_fails env counts e ->
  exists w',
    main env w = (Raise e, w')
    /\ Printed [Lit nl; Lit "❌ Error occurred: "; ExnF e] ∈ trace w'
    /\ Printed [Lit nl; Lit "Troubleshooting tips:"] ∈ trace w'.
Proof.
  intros Hc Hb Ht Hs Hr Hj Hk Hpos Hfails. unfold main.
  do 4 (rewrite bind_eq; cbn [print emit]). unfold try_except.
  rewrite bind_eq.
  match goal with
  | |- context [setup_quantum_service env ?w0] =>
      destruct (setup_quantum_service_ok env svc w0 Hc) as [wa ->]
  end.
  rewrite bind_eq. change (Some NUM_QUBITS) with (Some (Z.of_nat 6)).
  rewrite create_qrng_circuit_nonneg.
  do 2 (rewrite bind_eq; cbn [print emit]). rewrite bind_eq.
  match goal with
  | |- context [execute_on_quantum_hardware env svc ?c ?s ?w0] =>
      destruct (execute_on_quantum_hardware_ok env svc c NUM_SHOTS w0
                  b isa job counts Hb Ht Hs Hr Hj) as (wb & -> & _)
  end.
  rewrite bind_eq.
  match goal with
  | |- context [extract_random_numbers counts ?w0] =>
      destruct (extract_random_numbers_ok counts w0 Hk) as (l & wc & -> & Hp)
  end.
  assert (Hl : counts = [] \/ l <> []).
  { destruct counts as [|kc counts]; [by left | right].
    intros ->. symmetry in Hp. apply Permutation_nil_r in Hp.
    by apply expand_nonempty in Hp. }
  rewrite bind_eq.
  destruct (display_results_outcome env counts l (name b) NUM_QUBITS wc Hk Hl)
    as [wd ->].
  destruct (render_histogram_fails env counts (name b) wd e Hk Hfails)
    as [we ->].
  do 5 (rewrite bind_eq; cbn [print emit]). unfold raise.
  eexists. split; [reflexivity|]. cbn [trace]. clear. set_solver.
Qed.

Lemma rendering_failure_is_fatal_witness :
  exists w',
    main (histogram_raises_env sample_counts) sample_world
    = (Raise (LibraryError "VisualizationError"), w')
    /\ Printed [Lit nl; Lit "❌ Error occurred: ";
                ExnF (LibraryError "VisualizationError")] ∈ trace w'
    /\ Printed [Lit nl; Lit "Troubleshooting tips:"] ∈ trace w'.
Proof.
  apply (rendering_failure_is_fatal (histogram_raises_env sample_counts)
           sample_world
           (ServiceHandle "ibm_quantum_platform" "add_your_key_here")
           (mkBackend "ibm_stub" 3 None) (hadamard_then_measure 6) "job-0"
           sample_counts);
    try reflexivity.
  - repeat constructor; simpl; discriminate.
  - repeat constructor.
  - left. reflexivity.
Defined.

(** * Further properties of the pipeline *)

(** ** The decoder: malformed keys and the draws it consumes *)

Lemma int2_raises_ValueError s e : int2 s = Raise e -> e = ValueError.
Proof.
  unfold int2. repeat case_match; congruence.
Qed.

Lemma decode_loop_malformed (counts : list (string * Z)) (acc : list Z) w :
  Exists (fun kc => int2 kc.1 = Raise ValueError) counts ->
  for_each counts
    (fun '(binary_string, count) random_numbers =>
       decimal_value ← lift (int2 binary_string);
       ret (random_numbers ++ replicate (Z.to_nat count) decimal_value))
    acc w
  = (Raise ValueError, w).
Proof.
  revert acc. induction counts as [|[k c] counts IH]; intros acc Hbad.
  - by apply Exists_nil in Hbad.
  - cbn [for_each]. rewrite bind_eq, bind_eq. unfold lift at 1.
    destruct (int2 k) as [v|e] eqn:Ek.
    + cbn. apply IH. apply Exists_cons in Hbad as [Hbad|Hbad]; [|done].
      simpl in Hbad. congruence.
    + by rewrite (int2_raises_ValueError _ _ Ek).
Qed.

(** X1. A key that is not a base-2 literal makes the decoder raise
    [ValueError] from the conversion loop: nothing is returned, the shuffle
    is not reached (no draw is consumed) and only the first progress line
    has been printed. *)
Theorem decoder_malformed_key counts w :
  Exists (fun kc => int2 kc.1 = Raise ValueError) counts ->
  extract_random_numbers counts w
  = (Raise ValueError,
     mkWorld (rng w)
       (trace w
        ++ [Printed [Lit nl; Lit "🎲 Converting quantum measurements to random numbers..."]])).
Proof.
  intros Hbad. unfold extract_random_numbers.
  rewrite bind_eq. cbn [print emit]. rewrite bind_eq.
  by rewrite (decode_loop_malformed counts [] _ Hbad).
Qed.

Lemma decoder_malformed_key_witness :
  extract_random_numbers [("01", 3); ("2", 1); ("10", 4)] sample_world
  = (Raise ValueError,
     mkWorld (rng sample_world)
       (trace sample_world
        ++ [Printed [Lit nl; Lit "🎲 Converting quantum measurements to random numbers..."]])).
Proof.
  apply (decoder_malformed_key [("01", 3); ("2", 1); ("10", 4)] sample_world).
  apply Exists_cons_tl, Exists_cons_hd. reflexivity.
Defined.

Lemma randbelow_draw k w :
  (0 < k)%nat ->
  exists j,
    randbelow k w = (Ok j, mkWorld (drop 1 (rng w)) (trace w)) /\ (j < k)%nat.
Proof.
  intros Hk. unfold randbelow. destruct w as [[|r g] tr]; simpl.
  - exists 0%nat. done.
  - exists (r mod k)%nat. split; [done|]. apply Nat.mod_upper_bound. lia.
Qed.

Lemma shuffle_loop_draws (idx : list nat) (x : list Z) w :
  Forall (fun i => (i < length x)%nat) idx ->
  exists x',
    for_each idx (fun i x => j ← randbelow (i + 1); swap x i j) x w
    = (Ok x', mkWorld (drop (length idx) (rng w)) (trace w))
    /\ x' ≡ₚ x.
Proof.
  revert x w. induction idx as [|i idx IH]; intros x w Hidx.
  - exists x. destruct w; done.
  - apply list.Forall_cons in Hidx as [Hi Hidx].
    destruct (randbelow_draw (i + 1) w) as (j & Hr & Hj); [lia|].
    destruct (swap_in_range x i j (mkWorld (drop 1 (rng w)) (trace w)))
      as (x1 & Hs & Hp); [lia | lia |].
    destruct (IH x1 (mkWorld (drop 1 (rng w)) (trace w))) as (x' & Hl & Hp').
    { eapply list.Forall_impl; [exact Hidx|]. intros k Hk. simpl.
      by rewrite (Permutation_length Hp). }
    exists x'. split; [|by rewrite Hp'].
    cbn [for_each]. erewrite bind_Ok; [|erewrite bind_Ok; [exact Hs | exact Hr]].
    rewrite Hl. cbn [rng trace length]. by rewrite drop_drop.
Qed.

(** X2. The decoder's whole effect on a well-formed mapping: it prints
    exactly two lines, the second one reporting the number of samples; it
    takes one draw from the generator per sample but the first (none when
    there is at most one sample); and it returns a permutation of the
    grouped samples. *)
Theorem decoder_effects counts w :
  outcome_keys counts ->
  exists l,
    extract_random_numbers counts w
    = (Ok l,
       mkWorld (drop (length (expand counts) - 1) (rng w))
         (trace w
          ++ [Printed [Lit nl; Lit "🎲 Converting quantum measurements to random numbers..."];
              Printed [Lit "✅ Generated ";
                       IntF (Z.of_nat (length (expand counts))) 0;
                       Lit " random numbers!"]]))
    /\ l ≡ₚ expand counts.
Proof.
  intros Hk. unfold extract_random_numbers.
  rewrite bind_eq. cbn [print emit]. rewrite bind_eq.
  rewrite (decode_loop_ok counts [] _ Hk). cbn [app]. rewrite bind_eq.
  set (w1 := mkWorld _ _).
  destruct (shuffle_loop_draws (rev (range 1 (length (expand counts))))
              (expand counts) w1) as (l & Hs & Hp).
  { apply List.Forall_forall. intros i Hi. unfold range in Hi.
    rewrite <- List.in_rev in Hi. apply List.in_seq in Hi. lia. }
  unfold shuffle. rewrite Hs. exists l. split; [|done].
  rewrite bind_eq. cbn [print emit ret rng trace].
  unfold range. rewrite length_rev, length_seq, (Permutation_length Hp).
  subst w1. cbn [rng trace]. by rewrite <- app_assoc.
Qed.

Lemma decoder_effects_witness :
  exists l,
    extract_random_numbers sample_counts sample_world
    = (Ok l,
       mkWorld (drop (length (expand sample_counts) - 1) (rng sample_world))
         (trace sample_world
          ++ [Printed [Lit nl; Lit "🎲 Converting quantum measurements to random numbers..."];
              Printed [Lit "✅ Generated ";
                       IntF (Z.of_nat (length (expand sample_counts))) 0;
                       Lit " random numbers!"]]))
    /\ l ≡ₚ expand sample_counts.
Proof.
  apply (decoder_effects sample_counts sample_world).
  repeat constructor; simpl; discriminate.
Defined.

(** ** Distinct outcomes stay distinct *)

Lemma bin_value_inj s t :
  is_binary s = true -> is_binary t = true ->
  String.length s = String.length t ->
  bin_value s = bin_value t -> s = t.
Proof.
  revert t. induction s as [|c s IH]; intros [|d t] Hs Ht Hlen Hv;
    try done.
  apply is_binary_cons in Hs as [Hc Hs]. apply is_binary_cons in Ht as [Hd Ht].
  simpl in Hlen. injection Hlen as Hlen.
  pose proof (bin_value_bounds s Hs) as Bs.
  pose proof (bin_value_bounds t Ht) as Bt.
  cbn [bin_value] in Hv. rewrite Hlen in Hv, Bs.
  destruct Hc as [-> | ->], Hd as [-> | ->]; simpl in Hv;
    first [lia | f_equal; apply IH; (done || lia)].
Qed.

Lemma NoDup_keys_functional (counts : list (string * Z)) k c1 c2 :
  NoDup counts.*1 -> (k, c1) ∈ counts -> (k, c2) ∈ counts -> c1 = c2.
Proof.
  induction counts as [|[k' c'] counts IH]; intros Hnd H1 H2.
  - by apply elem_of_nil in H1.
  - cbn in Hnd. apply list.NoDup_cons in Hnd as [Hk' Hnd].
    apply elem_of_cons in H1 as [H1|H1], H2 as [H2|H2].
    + congruence.
    + injection H1 as -> ->. destruct Hk'.
      apply list_elem_of_fmap. by exists (k', c2).
    + injection H2 as -> ->. destruct Hk'.
      apply list_elem_of_fmap. by exists (k', c1).
    + by apply IH.
Qed.

Lemma elem_of_expand counts v :
  v ∈ expand counts <-> exists kc, kc ∈ counts /\ 0 < kc.2 /\ v = bin_value kc.1.
Proof.
  unfold expand. rewrite list_elem_of_In, in_flat_map. split.
  - intros (kc & Hin & Hv). apply list_elem_of_In in Hin, Hv.
    apply elem_of_replicate in Hv as [-> Hn]. exists kc. split; [done|].
    split; [lia | done].
  - intros (kc & Hin & Hc & ->). exists kc. split; [by apply list_elem_of_In|].
    apply list_elem_of_In, elem_of_replicate. split; [done | lia].
Qed.

Lemma len_set_expand n counts :
  binary_keys n counts -> NoDup counts.*1 ->
  len_set (expand counts)
  = length (filter (fun kc : string * Z => 0 < kc.2) counts).
Proof.
  intros Hk Hnd. unfold len_set.
  rewrite <- (length_fmap (fun kc : string * Z => bin_value kc.1)).
  apply Permutation_length, NoDup_Permutation.
  - apply NoDup_remove_dups.
  - apply NoDup_fmap_2_strong;
      [|apply NoDup_fmap_1 in Hnd; by apply list.NoDup_filter].
    intros [k1 c1] [k2 c2] H1 H2 Hv. simpl in Hv.
    apply list_elem_of_filter in H1 as [_ H1], H2 as [_ H2].
    unfold binary_keys in Hk. rewrite list.Forall_forall in Hk.
    destruct (Hk _ H1) as [Hb1 Hl1], (Hk _ H2) as [Hb2 Hl2]. simpl in *.
    assert (k1 = k2) as -> by (apply bin_value_inj; congruence).
    f_equal. by eapply NoDup_keys_functional.
  - intros v. rewrite elem_of_remove_dups, elem_of_expand, list_elem_of_fmap.
    split.
    + intros (kc & Hin & Hc & ->). exists kc. split; [done|].
      by apply list_elem_of_filter.
    + intros (kc & -> & Hin). apply list_elem_of_filter in Hin as [Hc Hin].
      by exists kc.
Qed.

(** X4. Distinct outcomes are never merged by the decoding: for a mapping
    whose keys are distinct binary strings of one length [n >= 1], the number
    of distinct values in the decoder's output (what the reporter prints as
    unique values) is the number of outcomes with a positive count. *)
Theorem decoder_distinct_values n counts w :
  (1 <= n)%nat -> binary_keys n counts -> NoDup counts.*1 ->
  exists l w',
    extract_random_numbers counts w = (Ok l, w')
    /\ len_set l
       = length (filter (fun kc : string * Z => 0 < kc.2) counts).
Proof.
  intros Hn Hk Hnd.
  destruct (extract_random_numbers_ok counts w) as (l & w' & He & Hp);
    [by eapply binary_keys_outcome_keys|].
  exists l, w'. split; [done|].
  rewrite (len_set_perm _ _ Hp). by eapply len_set_expand.
Qed.

Lemma decoder_distinct_values_witness :
  exists l w',
    extract_random_numbers [("00", 2); ("01", 0); ("11", 3)] sample_world
    = (Ok l, w')
    /\ len_set l
       = length (filter (fun kc : string * Z => 0 < kc.2)
                   [("00", 2); ("01", 0); ("11", 3)]).
Proof.
  apply (decoder_distinct_values 2 [("00", 2); ("01", 0); ("11", 3)]
           sample_world).
  - lia.
  - repeat constructor.
  - apply (bool_decide_unpack _). vm_compute. exact I.
Defined.

(** ** The reporter on an empty sample set with a non-empty mapping *)

(** X5. The emptiness check guards the statistics only. Given no samples
    but a non-empty mapping (for instance one whose counts are all 0), the
    reporter raises [ZeroDivisionError] at the first percentage of the
    distribution: it has printed lines only, and no histogram is plotted or
    saved. *)
Theorem reporter_divides_by_zero env counts backend_name n w :
  outcome_keys counts -> counts <> [] ->
  exists evs,
    display_results env counts [] backend_name n w
    = (Raise ZeroDivisionError, mkWorld (rng w) (trace w ++ evs))
    /\ Forall (fun e => exists l, e = Printed l) evs.
Proof.
  intros Hk Hne. unfold display_results.
  rewrite bind_eq, summary_block_run, bind_eq, statistics_block_empty.
  rewrite bind_eq. unfold distribution_block. rewrite bind_eq.
  cbn [print emit rng trace].
  destruct (sorted_by_count counts) as [|[k c] items] eqn:Es.
  { pose proof (sorted_by_count_perm counts) as Hp. rewrite Es in Hp.
    by apply Permutation_nil_l in Hp. }
  assert (Hin : (k, c) ∈ counts).
  { rewrite <- (sorted_by_count_perm counts), Es. set_solver. }
  unfold outcome_keys in Hk. rewrite list.Forall_forall in Hk.
  destruct (Hk _ Hin) as [Hb Hnk]. simpl in Hb, Hnk.
  cbn [take for_each]. rewrite bind_eq, bind_eq. unfold lift at 1.
  rewrite (int2_binary _ Hb Hnk). rewrite bind_eq. unfold lift at 1.
  cbn [length py_truediv Z.of_nat Z.eqb].
  eexists. split; [by rewrite <- !app_assoc|].
  unfold pow2_minus_1. destruct (0 <=? n); repeat constructor; eauto.
Qed.

Lemma reporter_divides_by_zero_witness :
  exists evs,
    display_results (stub_env [("0", 0)]) [("0", 0)] [] "ibm_stub" 1
      sample_world
    = (Raise ZeroDivisionError,
       mkWorld (rng sample_world) (trace sample_world ++ evs))
    /\ Forall (fun e => exists l, e = Printed l) evs.
Proof.
  apply (reporter_divides_by_zero (stub_env [("0", 0)]) [("0", 0)]
           "ibm_stub" 1 sample_world).
  - repeat constructor; simpl; discriminate.
  - discriminate.
Defined.

(** ** The direct rendering *)

(** X6. When the histogram call returns no figure, the reporter draws the
    chart itself: with well-formed keys and pyplot calls that succeed, it
    plots one bar per outcome of the mapping, in the mapping's order, at the
    outcome's integer value and as high as its count, saves it to
    [qrng_results.png] and shows it. *)
Theorem direct_rendering_bar_chart env counts backend_name w :
  outcome_keys counts ->
  plot_histogram env counts = Ok None ->
  Forall (fun f => plt env f = Ok tt) direct_rendering_calls ->
  render_histogram env counts backend_name w
  = (Ok tt,
     mkWorld (rng w)
       (trace w
        ++ [Printed [Lit nl; Lit "📊 Generating histogram..."];
            Plotted counts;
            BarChart (map (fun kc => bin_value kc.1) counts) counts.*2;
            Saved "qrng_results.png";
            Printed [Lit "✅ Histogram saved as 'qrng_results.png'"];
            Shown])).
Proof.
  intros Hk Hplot Hplt. unfold direct_rendering_calls in Hplt.
  repeat match goal with
         | H : Forall _ (_ :: _) |- _ =>
             apply list.Forall_cons in H as [? H]
         end.
  unfold render_histogram. run_M. rewrite Hplot. cbn.
  rewrite (decimal_keys_ok _ Hk).
  repeat match goal with
         | H : plt env _ = Ok tt |- _ => rewrite H; clear H
         end.
  cbn. by rewrite <- !app_assoc.
Qed.

Lemma direct_rendering_bar_chart_witness :
  render_histogram (direct_rendering_env sample_counts) sample_counts
    "ibm_stub" sample_world
  = (Ok tt,
     mkWorld (rng sample_world)
       (trace sample_world
        ++ [Printed [Lit nl; Lit "📊 Generating histogram..."];
            Plotted sample_counts;
            BarChart (map (fun kc => bin_value kc.1) sample_counts)
              sample_counts.*2;
            Saved "qrng_results.png";
            Printed [Lit "✅ Histogram saved as 'qrng_results.png'"];
            Shown])).
Proof.
  apply (direct_rendering_bar_chart (direct_rendering_env sample_counts)
           sample_counts "ibm_stub" sample_world).
  - repeat constructor; simpl; discriminate.
  - reflexivity.
  - repeat constructor.
Defined.

(** ** The pipeline as a whole *)

(** When the stages before the rendering succeed, [main] ends as the
    rendering does: with the sample set and the closing banner, or with the
    exception and the troubleshooting tips. *)
Lemma main_up_to_rendering env w svc b isa job counts :
  connect env "ibm_quantum_platform" "add_your_key_here" = Ok svc ->
  least_busy env svc = Ok b ->
  transpile env b 1 (hadamard_then_measure 6) = Ok isa ->
  set_default_shots env NUM_SHOTS = Ok tt ->
  sampler_run env b isa NUM_SHOTS = Ok job ->
  job_result env job = Ok counts ->
  outcome_keys counts ->
  positive_counts counts ->
  exists l wd,
    l ≡ₚ expand counts
    /\ Submitted isa NUM_SHOTS ∈ trace wd
    /\ main env w
       = match render_histogram env counts (name b) wd with
         | (Ok _, we) =>
             (Ok l,
              mkWorld (rng we)
                (trace we
                 ++ [Printed [Lit nl; Lit (str_mul "=" 70)];
                     Printed [Lit "✨ Quantum Random Number Generation Complete!"];
                     Printed [Lit (str_mul "=" 70)]]))
         | (Raise e, we) =>
             (Raise e,
              mkWorld (rng we)
                (trace we
                 ++ [Printed [Lit nl; Lit "❌ Error occurred: "; ExnF e];
                     Printed [Lit nl; Lit "Troubleshooting tips:"];
                     Printed [Lit "1. Check your API token is correct"];
                     Printed [Lit "2. Ensure you have available quantum time (Open Plan: 10 min/28 days)"];
                     Printed [Lit "3. Check IBM Quantum Platform status at https://quantum.ibm.com/"]]))
         end.
Proof.
  intros Hc Hb Ht Hs Hr Hj Hk Hpos. unfold main.
  do 4 (rewrite bind_eq; cbn [print emit]). unfold try_except.
  rewrite bind_eq.
  match goal with
  | |- context [setup_quantum_service env ?w0] =>
      destruct (setup_quantum_service_ok env svc w0 Hc) as [wa ->]
  end.
  rewrite bind_eq. change (Some NUM_QUBITS) with (Some (Z.of_nat 6)).
  rewrite create_qrng_circuit_nonneg.
  do 2 (rewrite bind_eq; cbn [print emit]). rewrite bind_eq.
  match goal with
  | |- context [execute_on_quantum_hardware env svc ?c ?s ?w0] =>
      destruct (execute_on_quantum_hardware_ok env svc c NUM_SHOTS w0
                  b isa job counts Hb Ht Hs Hr Hj) as (wb & -> & Hsub)
  end.
  rewrite bind_eq.
  destruct (decoder_effects counts wb Hk) as (l & -> & Hp).
  assert (Hl : counts = [] \/ l <> []).
  { destruct counts as [|kc counts]; [by left | right].
    intros ->. symmetry in Hp. apply Permutation_nil_r in Hp.
    by apply expand_nonempty in Hp. }
  rewrite bind_eq. unfold display_results.
  rewrite bind_eq, summary_block_run, bind_eq.
  set (w1 := mkWorld _ _).
  assert (Hst : exists evs, statistics_block l w1
                            = (Ok tt, mkWorld (rng w1) (trace w1 ++ evs))).
  { destruct l as [|x l].
    - exists []. rewrite app_nil_r. by destruct w1.
    - erewrite statistics_block_run; [eauto | done | reflexivity..]. }
  destruct Hst as [evs1 ->]. rewrite bind_eq.
  set (w2 := mkWorld _ _).
  destruct (distribution_block_ok counts l w2 Hk Hl) as [w3 Hd].
  rewrite Hd.
  assert (Hw3 : exists evs3, trace w3 = trace w2 ++ evs3).
  { assert (Hdist : emits (fun _ => True) (distribution_block counts l)).
    { unfold distribution_block. emits_all; done. }
    destruct (Hdist w2) as (evs3 & He3 & _). rewrite Hd in He3. eauto. }
  destruct Hw3 as [evs3 Hw3].
  exists l, w3. split; [done|]. split.
  { rewrite Hw3. subst w2 w1. cbn [trace]. clear -Hsub. set_solver. }
  destruct (render_histogram env counts (name b) w3) as [[[]|e] we].
  - do 3 (rewrite bind_eq; cbn [print emit]). unfold ret.
    cbn [rng trace]. by rewrite <- !app_assoc.
  - do 5 (rewrite bind_eq; cbn [print emit]). unfold raise.
    cbn [rng trace]. by rewrite <- !app_assoc.
Qed.

(** X7. A run in which every library call succeeds: [main] submits the
    transpiled six-qubit circuit once with 1024 shots and returns the
    decoded samples, a permutation of the job's outcomes each repeated as
    often as it was counted, as many as the counts add up to; its last
    output is the closing banner. *)
Theorem main_returns_decoded_samples env w svc b isa job counts :
  connect env "ibm_quantum_platform" "add_your_key_here" = Ok svc ->
  least_busy env svc = Ok b ->
  transpile env b 1 (hadamard_then_measure 6) = Ok isa ->
  set_default_shots env NUM_SHOTS = Ok tt ->
  sampler_run env b isa NUM_SHOTS = Ok job ->
  job_result env job = Ok counts ->
  outcome_keys counts ->
  positive_counts counts ->
  rendering_succeeds env counts ->
  exists l w' tr,
    main env w = (Ok l, w')
    /\ l ≡ₚ expand counts
    /\ Z.of_nat (length l) = total_count counts
    /\ Submitted isa NUM_SHOTS ∈ trace w'
    /\ trace w'
       = tr ++ [Printed [Lit nl; Lit (str_mul "=" 70)];
                Printed [Lit "✨ Quantum Random Number Generation Complete!"];
                Printed [Lit (str_mul "=" 70)]].
Proof.
  intros Hc Hb Ht Hs Hr Hj Hk Hpos Hrender.
  destruct (main_up_to_rendering env w svc b isa job counts)
    as (l & wd & Hp & Hsub & Hmain); try done.
  assert (Hext : emits (fun _ => True) (render_histogram env counts (name b))).
  { unfold render_histogram. emits_all; done. }
  destruct (Hext wd) as (evs & Hevs & _).
  destruct (render_histogram_succeeds env counts (name b) wd Hk Hrender)
    as [we Hwe].
  rewrite Hwe in Hmain, Hevs.
  simpl in Hevs. exists l. eexists. exists (trace we).
  split; [exact Hmain|]. split; [done|]. split.
  { rewrite (Permutation_length Hp). apply length_expand.
    eapply list.Forall_impl; [exact Hpos|]. intros kc Hkc. simpl in *. lia. }
  split; [|done]. cbn [trace]. rewrite Hevs. clear -Hsub. set_solver.
Qed.

Lemma main_returns_decoded_samples_witness :
  exists l w' tr,
    main (stub_env sample_counts) sample_world = (Ok l, w')
    /\ l ≡ₚ expand sample_counts
    /\ Z.of_nat (length l) = total_count sample_counts
    /\ Submitted (hadamard_then_measure 6) NUM_SHOTS ∈ trace w'
    /\ trace w'
       = tr ++ [Printed [Lit nl; Lit (str_mul "=" 70)];
                Printed [Lit "✨ Quantum Random Number Generation Complete!"];
                Printed [Lit (str_mul "=" 70)]].
Proof.
  apply (main_returns_decoded_samples (stub_env sample_counts) sample_world
           (ServiceHandle "ibm_quantum_platform" "add_your_key_here")
           (mkBackend "ibm_stub" 3 None) (hadamard_then_measure 6) "job-0"
           sample_counts);
    try reflexivity.
  - repeat constructor; simpl; discriminate.
  - repeat constructor.
  - left. exists FigureHandle. repeat split.
Defined.



(** X10. A shot count that the library refuses costs no execution: when the
    assignment to the sampler's default raises, the executor raises the same
    exception and no job has been submitted. *)
Theorem refused_shot_count_submits_nothing env svc c shots w b isa e :
  least_busy env svc = Ok b ->
  transpile env b 1 c = Ok isa ->
  set_default_shots env shots = Raise e ->
  exists evs,
    execute_on_quantum_hardware env svc c (Some shots) w
    = (Raise e, mkWorld (rng w) (trace w ++ evs))
    /\ Forall (fun ev => forall c' s, ev <> Submitted c' s) evs.
Proof.
  intros Hb Ht Hs. unfold execute_on_quantum_hardware. cbn [or_default].
  step_print. step_lift Hb. do 4 step_print. step_lift Ht.
  do 6 step_print. step_lift Hs.
  eexists. split; [by rewrite <- !app_assoc|].
  destruct (quantum_volume b); repeat constructor; done.
Qed.

Lemma refused_shot_count_submits_nothing_witness :
  exists evs,
    execute_on_quantum_hardware (checked_shots_env sample_counts)
      (ServiceHandle "ibm_quantum_platform" "add_your_key_here")
      (hadamard_then_measure 3) (Some (-5)) sample_world
    = (Raise (LibraryError "ValidationError"),
       mkWorld (rng sample_world) (trace sample_world ++ evs))
    /\ Forall (fun ev => forall c' s, ev <> Submitted c' s) evs.
Proof.
  apply (refused_shot_count_submits_nothing (checked_shots_env sample_counts)
           _ _ (-5) _ (mkBackend "ibm_stub" 3 None) (hadamard_then_measure 3));
    reflexivity.
Defined.

(** ** The extremes of the decoder's output *)



(** ** The distribution *)

Lemma insert_by_count_sorted x l :
  Sorted.StronglySorted count_ge l -> Sorted.StronglySorted count_ge (insert_by_count x l).
Proof.
  induction 1 as [|y l Hs IH Hy]; simpl; [repeat constructor|].
  destruct (Z.ltb_spec x.2 y.2) as [Hlt|Hge].
  - constructor; [done|]. rewrite insert_by_count_perm.
    constructor; [unfold count_ge; lia | done].
  - constructor; [by constructor|].
    constructor; [unfold count_ge; lia|].
    eapply list.Forall_impl; [exact Hy|]. unfold count_ge. intros z Hz. lia.
Qed.

Lemma sorted_by_count_sorted items :
  Sorted.StronglySorted count_ge (sorted_by_count items).
Proof.
  induction items as [|x items IH]; simpl; [constructor|].
  by apply insert_by_count_sorted.
Qed.

Lemma distribution_loop_lines (items : list (string * Z)) (l : list Z) w :
  outcome_keys items -> l <> [] ->
  for_each items
    (fun '(binary, count) (_ : unit) =>
       decimal ← lift (int2 binary);
       ratio ← lift (py_truediv count (Z.of_nat (length l)));
       print [Lit "   "; Lit binary; Lit " (decimal: "; IntF decimal 3;
              Lit ") → "; IntF count 4; Lit " times (";
              FloatF (ratio * 100)%Q 1; Lit "%)"])
    tt w
  = (Ok tt,
     mkWorld (rng w) (trace w ++ map (distribution_line (length l)) items)).
Proof.
  intros Hk Hl. revert w.
  induction Hk as [|[k c] items [Hb Hne] _ IH]; intros w.
  { simpl. rewrite app_nil_r. by destruct w. }
  simpl in Hb, Hne.
  assert (Hdiv : py_truediv c (Z.of_nat (length l))
                 = Ok (inject_Z c / inject_Z (Z.of_nat (length l)))%Q).
  { unfold py_truediv.
    destruct (Z.eqb_spec (Z.of_nat (length l)) 0) as [Hz|_]; [|done].
    destruct l; [done | simpl in Hz; lia]. }
  cbn [for_each]. rewrite bind_eq.
  unfold lift at 1. rewrite bind_eq. rewrite (int2_binary _ Hb Hne).
  unfold lift at 1. rewrite bind_eq, Hdiv.
  cbn [print emit]. rewrite IH. cbn [rng trace map].
  by rewrite <- app_assoc.
Qed.

(** X14. The distribution lists the most frequent outcomes: with
    well-formed keys and at least one sample, the reporter prints the
    heading and then one line per outcome for the first ten outcomes in
    order of decreasing count (all of them when there are fewer), each with
    its value, its count and its share of the samples; no outcome left out
    has a larger count than one that is listed. *)
Theorem distribution_lists_most_frequent counts (l : list Z) w :
  outcome_keys counts -> l <> [] ->
  let shown := take 10 (sorted_by_count counts) in
  let hidden := drop 10 (sorted_by_count counts) in
  distribution_block counts l w
  = (Ok tt,
     mkWorld (rng w)
       (trace w
        ++ Printed [Lit nl; Lit "🔬 Measurement Distribution:"]
           :: map (distribution_line (length l)) shown))
  /\ length shown = (10 `min` length counts)%nat
  /\ shown ++ hidden ≡ₚ counts
  /\ Sorted.StronglySorted count_ge shown
  /\ (forall x y, x ∈ shown -> y ∈ hidden -> y.2 <= x.2).
Proof.
  intros Hk Hl shown hidden.
  pose proof (sorted_by_count_sorted counts) as Hs.
  rewrite <- (take_drop 10 (sorted_by_count counts)) in Hs.
  fold shown hidden in Hs. apply sorting.StronglySorted_app in Hs as (Hsh & Hs1 & _).
  split; [|split; [|split; [|split]]].
  - unfold distribution_block. rewrite bind_eq. cbn [print emit].
    rewrite distribution_loop_lines; [|
      apply Forall_take; unfold outcome_keys;
      by rewrite sorted_by_count_perm | done].
    cbn [rng trace]. by rewrite <- app_assoc.
  - unfold shown. by rewrite length_take, (Permutation_length
                                             (sorted_by_count_perm counts)).
  - unfold shown, hidden. by rewrite take_drop, sorted_by_count_perm.
  - done.
  - intros x y Hx Hy. by apply (Hsh x y).
Qed.

Lemma distribution_lists_most_frequent_witness :
  let shown := take 10 (sorted_by_count sample_counts) in
  let hidden := drop 10 (sorted_by_count sample_counts) in
  distribution_block sample_counts [7; 0; 7; 0; 7] sample_world
  = (Ok tt,
     mkWorld (rng sample_world)
       (trace sample_world
        ++ Printed [Lit nl; Lit "🔬 Measurement Distribution:"]
           :: map (distribution_line (length [7; 0; 7; 0; 7])) shown))
  /\ length shown = (10 `min` length sample_counts)%nat
  /\ shown ++ hidden ≡ₚ sample_counts
  /\ Sorted.StronglySorted count_ge shown
  /\ (forall x y, x ∈ shown -> y ∈ hidden -> y.2 <= x.2).
Proof.
  apply (distribution_lists_most_frequent sample_counts [7; 0; 7; 0; 7]
           sample_world).
  - repeat constructor; simpl; discriminate.
  - discriminate.
Defined.

(** ** The summary, and jobs that fail *)

(** X15. The summary agrees with the mapping it reports on: for a mapping
    with distinct binary keys of one length [n >= 1] and counts that are not
    negative, whatever the shuffle does, the reporter prints the sum of the
    counts as the number of measurements and the number of outcomes with a
    positive count as the number of unique values. *)
Theorem summary_matches_mapping env n counts backend_name num_qubits w :
  (1 <= n)%nat -> binary_keys n counts -> NoDup counts.*1 ->
  nonneg_counts counts ->
  exists l w1 evs,
    extract_random_numbers counts w = (Ok l, w1)
    /\ trace (display_results env counts l backend_name num_qubits w1).2
       = trace w1 ++ evs
    /\ Printed [Lit "Total Measurements: "; IntF (total_count counts) 0] ∈ evs
    /\ Printed [Lit "Unique Values Generated: ";
                IntF (Z.of_nat (length (filter (fun kc : string * Z => 0 < kc.2)
                                          counts))) 0] ∈ evs.
Proof.
  intros Hn Hk Hnd Hc.
  destruct (extract_random_numbers_ok counts w) as (l & w1 & He & Hp);
    [by eapply binary_keys_outcome_keys|].
  assert (Hlen : Z.of_nat (length l) = total_count counts)
    by (by rewrite (Permutation_length Hp), length_expand).
  assert (Hset : len_set l
                 = length (filter (fun kc : string * Z => 0 < kc.2) counts))
    by (rewrite (len_set_perm _ _ Hp); by eapply len_set_expand).
  destruct (display_results_trace env counts l backend_name num_qubits w1)
    as (evs & Ht & _ & _).
  rewrite summary_block_run in Ht. cbn [snd] in Ht.
  set (w2 := mkWorld _ _) in Ht.
  assert (Hst : exists evs1, trace (statistics_block l w2).2
                             = trace w2 ++ evs1).
  { destruct l as [|x l].
    - exists []. by rewrite app_nil_r.
    - erewrite statistics_block_run; [eauto | done | reflexivity..]. }
  destruct Hst as [evs1 Hst]. rewrite Hst in Ht. subst w2.
  cbn [trace] in Ht. rewrite Hlen, Hset in Ht. rewrite <- !app_assoc in Ht.
  exists l, w1. eexists. split; [done|]. split; [exact Ht|].
  clear. split; set_solver.
Qed.

Lemma summary_matches_mapping_witness :
  exists l w1 evs,
    extract_random_numbers sample_counts sample_world = (Ok l, w1)
    /\ trace (display_results (stub_env sample_counts) sample_counts l
                "ibm_stub" 3 w1).2
       = trace w1 ++ evs
    /\ Printed [Lit "Total Measurements: ";
                IntF (total_count sample_counts) 0] ∈ evs
    /\ Printed [Lit "Unique Values Generated: ";
                IntF (Z.of_nat (length (filter (fun kc : string * Z => 0 < kc.2)
                                          sample_counts))) 0] ∈ evs.
Proof.
  apply (summary_matches_mapping (stub_env sample_counts) 3 sample_counts
           "ibm_stub" 3 sample_world).
  - lia.
  - repeat constructor.
  - apply (bool_decide_unpack _). vm_compute. exact I.
  - repeat constructor; simpl; lia.
Defined.


